(** * SingleStore MCP server: a shallow embedding of the two front-ends

    The repository holds two near-duplicate Python modules:

    - [src/src/singlestore_mcp_server/server.py], the FastAPI (HTTP)
      front-end: [list_resources], [get_resource], [execute_query];
    - [src/singlestore_mcp_server/server.py], the MCP (tool protocol)
      front-end: [handle_list_resources], [handle_read_resource],
      [handle_call_tool].

    Both open one database connection per request with
    [get_db_connection], run one or two statements on a cursor and close
    the connection in a [finally] clause.

    The embedding: [Py] holds the Python values the handlers touch
    (dynamically typed values, dictionaries as [gmap], exceptions,
    truthiness, [datetime.isoformat], [json.dumps]).  [S2] models the
    [singlestoredb] driver as an environment the handlers talk to,
    together with the small exception-and-state monad in which the
    handlers are written: the state is the trace of driver calls and the
    handler's local variable [conn].  [Model] holds what the two files
    declare alike; [Http] and [Mcp] are the two source files, function by
    function.  [Spec] restates, in the words of the specification, what
    the handlers are compared with.

    Not modelled: logging, the reading of the process environment (a
    failure there is a failure of [s2.connect]), floating point values,
    and the characters of JSON texts.  The libraries are not part of the
    repository: the encoder FastAPI applies to a returned value is a
    parameter of [Http.response_status], and the [mcp] library's
    [types.Resource] is modelled by what it does with the arguments the
    code gives it. *)

From stdpp Require Import gmap strings list fin_maps.
From Stdlib Require Import ZArith NArith DecimalString DecimalN.

Set Warnings "-register-all".

Local Open Scope string_scope.
Local Open Scope list_scope.
Local Open Scope Z_scope.

(* ===================================================================== *)
(** ** Python values *)
(* ===================================================================== *)

Module Py.

(** A naive [datetime.datetime] (the driver returns [CREATE_TIME] without
    time zone). *)
Record datetime := mk_datetime {
  year : N; month : N; day : N;
  hour : N; minute : N; second : N; microsecond : N
}.

(** The values that travel through the handlers: column values of a row,
    query parameters, tool arguments.  A [dict] with string keys is a
    [gmap string value]. *)
Inductive value :=
| VNone
| VBool (b : bool)
| VInt (z : Z)
| VStr (s : string)
| VBytes (b : list Byte.byte)
| VByteArray (b : list Byte.byte)
| VDatetime (d : datetime)
| VTuple (l : list value)
| VList (l : list value)
| VDict (d : gmap string value).

Abbreviation dict := (gmap string value).

(** Python truth value testing ([if x:], [not x]). *)
Definition dict_truthy (d : dict) : bool :=
  match map_to_list d with [] => false | _ :: _ => true end.

Definition truthy (v : value) : bool :=
  match v with
  | VNone => false
  | VBool b => b
  | VInt z => negb (z =? 0)
  | VStr s => negb (String.eqb s "")
  | VBytes b | VByteArray b => match b with [] => false | _ => true end
  | VDatetime _ => true
  | VTuple l | VList l => match l with [] => false | _ => true end
  | VDict d => dict_truthy d
  end.

(** Truth value of an expression that is either [None] or a value. *)
Definition truthy_opt (o : option value) : bool :=
  match o with None => false | Some v => truthy v end.

(** [isinstance(value, (bytes, bytearray))] *)
Definition is_binary (v : value) : bool :=
  match v with VBytes _ | VByteArray _ => true | _ => false end.

(** Decimal rendering of a non-negative integer ([str(n)], [%d]). *)
Definition decimal (n : N) : string := NilEmpty.string_of_uint (N.to_uint n).

Fixpoint zeros (k : nat) : string :=
  match k with O => "" | S k' => "0" +:+ zeros k' end.

(** [%0wd] for a non-negative integer: left-pad with zeros up to width
    [w], never truncate. *)
Definition zfill (w : nat) (n : N) : string :=
  let s := decimal n in zeros (w - String.length s) +:+ s.

(** [datetime.isoformat()] with the default separator and
    [timespec='auto']: the microseconds are printed only when non-zero. *)
Definition isoformat (d : datetime) : string :=
  zfill 4 (year d) +:+ "-" +:+ zfill 2 (month d) +:+ "-" +:+ zfill 2 (day d)
  +:+ "T" +:+ zfill 2 (hour d) +:+ ":" +:+ zfill 2 (minute d)
  +:+ ":" +:+ zfill 2 (second d)
  +:+ (if (microsecond d =? 0)%N then "" else "." +:+ zfill 6 (microsecond d)).

(** A Python [str] is represented by its UTF-8 encoding.  [utf8_valid]
    accepts the byte sequences a strict UTF-8 decoder accepts: no stray
    continuation byte, no overlong form, no surrogate, nothing above
    U+10FFFF. *)
Definition byte_between (lo hi : N) (b : Byte.byte) : bool :=
  ((lo <=? Byte.to_N b) && (Byte.to_N b <=? hi))%N.

Definition continuation (b : Byte.byte) : bool := byte_between 128 191 b.

(** The second byte of a three-byte sequence that starts with [b]. *)
Definition second_of_three (b b1 : Byte.byte) : bool :=
  if byte_between 224 224 b then byte_between 160 191 b1
  else if byte_between 237 237 b then byte_between 128 159 b1
  else continuation b1.

(** The second byte of a four-byte sequence that starts with [b]. *)
Definition second_of_four (b b1 : Byte.byte) : bool :=
  if byte_between 240 240 b then byte_between 144 191 b1
  else if byte_between 244 244 b then byte_between 128 143 b1
  else continuation b1.

Fixpoint utf8_valid (bs : list Byte.byte) : bool :=
  match bs with
  | [] => true
  | b :: rest =>
      if byte_between 0 127 b then utf8_valid rest
      else if byte_between 194 223 b then
        match rest with
        | b1 :: rest1 => continuation b1 && utf8_valid rest1
        | _ => false
        end
      else if byte_between 224 239 b then
        match rest with
        | b1 :: b2 :: rest2 =>
            second_of_three b b1 && continuation b2 && utf8_valid rest2
        | _ => false
        end
      else if byte_between 240 244 b then
        match rest with
        | b1 :: b2 :: b3 :: rest3 =>
            second_of_four b b1 && continuation b2 && continuation b3
            && utf8_valid rest3
        | _ => false
        end
      else false
  end.

(** [bytes.decode()] with the strict UTF-8 codec: the string with the
    same bytes, or no string at all. *)
Definition decode_utf8 (bs : list Byte.byte) : option string :=
  if utf8_valid bs then Some (Stdlib.Strings.String.string_of_list_byte bs) else None.

(** Exceptions.  A message is either a literal or [str(e)] of another
    exception; [str(e)] is kept symbolic because its rendering belongs to
    the library that defines [e]. *)
Inductive exn :=
| HTTPException (status_code : Z) (detail : text)
| ValueError (message : text)
| KeyError (key : string)
| AttributeError (attribute : string)
| TypeError
| UnboundLocalError (variable : string)
| ValidationError (field : string)
| DatabaseError (message : string)
with text :=
| Lit (s : string)
| StrOf (e : exn).

(** The result of running a piece of Python: a value or a raised
    exception. *)
Inductive outcome (A : Type) :=
| Return (a : A)
| Raise (e : exn).
Arguments Return {A} a.
Arguments Raise {A} e.

Definition obind {A B} (o : outcome A) (k : A -> outcome B) : outcome B :=
  match o with Return a => k a | Raise e => Raise e end.

(** [d[key]] *)
Definition getitem (d : dict) (key : string) : outcome value :=
  match d !! key with Some v => Return v | None => Raise (KeyError key) end.

(** What [json.dumps] accepts: [None], booleans, integers, strings, lists,
    tuples and string-keyed dictionaries of such.  [bytes], [bytearray] and
    [datetime] objects are rejected. *)
Fixpoint json_serializable (v : value) : bool :=
  match v with
  | VNone | VBool _ | VInt _ | VStr _ => true
  | VBytes _ | VByteArray _ | VDatetime _ => false
  | VTuple l | VList l => forallb json_serializable l
  | VDict d => map_fold (fun _ x acc => json_serializable x && acc) true d
  end.

(** The text produced by [json.dumps v].  Its characters are not modelled:
    the text is represented by the value it encodes. *)
Variant json_text := JsonOf (v : value).

(** [json.dumps(v)]: raises [TypeError] on a value that is not JSON
    serializable. *)
Definition json_dumps (v : value) : outcome json_text :=
  if json_serializable v then Return (JsonOf v) else Raise TypeError.

End Py.

Import Py.

(* ===================================================================== *)
(** ** The driver and the handler monad *)
(* ===================================================================== *)

Module S2.

(** A row as the driver returns it with [results_type='dict']. *)
Abbreviation row := (gmap string value).

(** What [cur.execute] is called with: the statement and, when a second
    argument is passed, the parameters given to the driver's binding
    mechanism. *)
Record statement := mk_statement {
  sql : value;
  args : option value
}.

(** The state of a cursor after a successful [execute] (DB-API):
    [description] is [None] for a statement without a result set and the
    sequence of column descriptors otherwise. *)
Record cursor := mk_cursor {
  description : option (list string);
  rows : list row;
  rowcount : Z
}.

(** [if cur.description:] *)
Definition reports_description (c : cursor) : bool :=
  match description c with
  | Some (_ :: _) => true
  | Some [] | None => false
  end.

(** [cur.fetchone()] right after [execute]: the first row or [None]. *)
Definition fetchone (c : cursor) : option row := head (rows c).

(** [cur.fetchall()] right after [execute]. *)
Definition fetchall (c : cursor) : list row := rows c.

(** The database as the handlers see it.  [connect_result] is the
    exception [s2.connect] raises, if any; [cursor_result] likewise for
    [conn.cursor()]; [execute_result] answers a statement, given the
    statements already executed on the connection. *)
Record env := mk_env {
  connect_result : option exn;
  cursor_result : option exn;
  execute_result : list statement -> statement -> exn + cursor
}.

(** Calls that reach the driver, in order. *)
Inductive event :=
| EConnect (ok : bool)
| ECursor
| EExecute (s : statement)
| ECursorClose
| EClose.

Variant connection := Conn.

(** Handler state: the trace of driver calls and the local variable
    [conn], unbound until [conn = get_db_connection()] has completed. *)
Record state := mk_state {
  trace : list event;
  conn : option connection
}.

Definition initial : state := {| trace := []; conn := None |}.

Fixpoint executed (t : list event) : list statement :=
  match t with
  | [] => []
  | EExecute s :: t' => s :: executed t'
  | _ :: t' => executed t'
  end.

(** Number of connections open after a trace that starts with [n] open
    ones; [None] when a [close] happens with no connection open. *)
Fixpoint open_connections (n : nat) (t : list event) : option nat :=
  match t with
  | [] => Some n
  | EConnect true :: t' => open_connections (S n) t'
  | EClose :: t' =>
      match n with
      | O => None
      | S n' => open_connections n' t'
      end
  | _ :: t' => open_connections n t'
  end.

(** Computations: read the environment, thread the state, return or
    raise.  The state survives a raised exception. *)
Definition M (A : Type) : Type := env -> state -> outcome A * state.

Definition ret {A} (a : A) : M A := fun _ st => (Return a, st).

Definition raise {A} (e : exn) : M A := fun _ st => (Raise e, st).

Definition bind {A B} (m : M A) (k : A -> M B) : M B :=
  fun db st =>
    match m db st with
    | (Return a, st') => k a db st'
    | (Raise e, st') => (Raise e, st')
    end.

(** A pure computation that may raise. *)
Definition lift {A} (o : outcome A) : M A := fun _ st => (o, st).

(** [try: m  except Exception as e: h e] *)
Definition try_except {A} (m : M A) (h : exn -> M A) : M A :=
  fun db st =>
    match m db st with
    | (Return a, st') => (Return a, st')
    | (Raise e, st') => h e db st'
    end.

(** [try: m  finally: f].  An exception raised by [f] replaces the
    outcome of [m]. *)
Definition try_finally {A} (m : M A) (f : M unit) : M A :=
  fun db st =>
    match m db st with
    | (o, st') =>
        match f db st' with
        | (Return _, st'') => (o, st'')
        | (Raise e, st'') => (Raise e, st'')
        end
    end.

Definition emit (ev : event) : M unit :=
  fun _ st => (Return tt, {| trace := trace st ++ [ev]; conn := conn st |}).

(** [s2.connect(...)] *)
Definition s2_connect : M connection :=
  fun db st =>
    match connect_result db with
    | None => (Return Conn, {| trace := trace st ++ [EConnect true]; conn := conn st |})
    | Some e => (Raise e, {| trace := trace st ++ [EConnect false]; conn := conn st |})
    end.

(** [conn = m]: the local variable is bound only when [m] returns. *)
Definition assign_conn (m : M connection) : M unit :=
  fun db st =>
    match m db st with
    | (Return c, st') => (Return tt, {| trace := trace st'; conn := Some c |})
    | (Raise e, st') => (Raise e, st')
    end.

(** [with conn.cursor() as cur: body].  The cursor is closed when the
    block is left, also by an exception, which then propagates. *)
Definition with_cursor {A} (body : M A) : M A :=
  fun db st =>
    match cursor_result db with
    | Some e => (Raise e, st)
    | None =>
        match body db {| trace := trace st ++ [ECursor]; conn := conn st |} with
        | (o, st') => (o, {| trace := trace st' ++ [ECursorClose]; conn := conn st' |})
        end
    end.

(** [cur.execute(sql)] / [cur.execute(sql, args)] *)
Definition cur_execute (s : statement) : M cursor :=
  fun db st =>
    let st' := {| trace := trace st ++ [EExecute s]; conn := conn st |} in
    match execute_result db (executed (trace st)) s with
    | inl e => (Raise e, st')
    | inr c => (Return c, st')
    end.

(** [conn.close()]: reading the unbound local raises
    [UnboundLocalError]. *)
Definition conn_close : M unit :=
  fun _ st =>
    match conn st with
    | None => (Raise (UnboundLocalError "conn"), st)
    | Some _ => (Return tt, {| trace := trace st ++ [EClose]; conn := conn st |})
    end.

(** Run a handler on a fresh request. *)
Definition run {A} (m : M A) (db : env) : outcome A * list event :=
  match m db initial with (o, st) => (o, trace st) end.

Definition result {A} (m : M A) (db : env) : outcome A := fst (run m db).
Definition calls {A} (m : M A) (db : env) : list event := snd (run m db).

End S2.

Import S2.

Declare Scope py_scope.
Delimit Scope py_scope with py.
Notation "x <~ m ;; k" := (S2.bind m (fun x => k))
  (at level 100, m at next level, right associativity) : py_scope.
Notation "m ;;; k" := (S2.bind m (fun _ => k))
  (at level 100, right associativity) : py_scope.
Local Open Scope py_scope.
Notation "x <- o ;; k" := (Py.obind o (fun x => k))
  (at level 100, o at next level, right associativity) : py_scope.

(* ===================================================================== *)
(** ** Declarations shared by the two source files *)
(* ===================================================================== *)

Module Model.

(** [class QueryRequest(BaseModel)]: [query: str],
    [parameters: Optional[Dict[str, Any]] = None]. *)
Record QueryRequest := mk_QueryRequest {
  query : string;
  parameters : option dict
}.

(** [class Resource(BaseModel)]: [id: str], [type: str],
    [attributes: Dict[str, Any]]. *)
Record Resource := mk_Resource {
  id : string;
  type : string;
  attributes : dict
}.

(** [Resource(id=..., type=..., attributes=...)]: pydantic validates the
    field [id: str].  A string is taken as it is; a [bytes] or [bytearray]
    value is decoded as UTF-8 and rejected when it cannot be; any other
    value is rejected.  The attributes are kept as given. *)
Definition Resource_init (id_ : value) (type_ : string) (attributes_ : dict)
  : outcome Resource :=
  match id_ with
  | VStr s => Return {| id := s; type := type_; attributes := attributes_ |}
  | VBytes b | VByteArray b =>
      match decode_utf8 b with
      | Some s => Return {| id := s; type := type_; attributes := attributes_ |}
      | None => Raise (ValidationError "id")
      end
  | _ => Raise (ValidationError "id")
  end.

(** The metadata query of the Table Lister. *)
Definition list_tables_sql : string :=
"
                SELECT 
                    TABLE_NAME,
                    TABLE_TYPE,
                    TABLE_COMMENT,
                    CREATE_TIME
                FROM information_schema.TABLES 
                WHERE TABLE_SCHEMA = DATABASE()
            ".

(** The existence check of the Table Reader, with one [%s] parameter. *)
Definition table_exists_sql : string :=
"
                SELECT TABLE_NAME 
                FROM information_schema.TABLES 
                WHERE TABLE_SCHEMA = DATABASE() 
                AND TABLE_NAME = %s
            ".

Definition list_tables : statement :=
  {| sql := VStr list_tables_sql; args := None |}.

(** [cur.execute(table_exists_sql, (resource_id,))] *)
Definition table_exists (resource_id : string) : statement :=
  {| sql := VStr table_exists_sql; args := Some (VTuple [VStr resource_id]) |}.

(** [cur.execute(f"SELECT * FROM {resource_id}")] *)
Definition select_all (resource_id : string) : statement :=
  {| sql := VStr ("SELECT * FROM " +:+ resource_id); args := None |}.

(** [table['CREATE_TIME'].isoformat() if table['CREATE_TIME'] else None] *)
Definition created_at (table : row) : outcome value :=
  c <- getitem table "CREATE_TIME" ;;
  if truthy c then
    t <- getitem table "CREATE_TIME" ;;
    match t with
    | VDatetime d => Return (VStr (isoformat d))
    | _ => Raise (AttributeError "isoformat")
    end
  else Return VNone.

(** [{"data": rows}] *)
Definition data_result (rows : list row) : dict :=
  list_to_map [("data", VList (VDict <$> rows))].

(** [{"affected_rows": n}] *)
Definition affected_rows_result (n : Z) : dict :=
  list_to_map [("affected_rows", VInt n)].

End Model.

Import Model.

(* ===================================================================== *)
(** ** The HTTP front-end: src/src/singlestore_mcp_server/server.py *)
(* ===================================================================== *)

Module Http.

(** [get_db_connection()]: whatever [s2.connect] raises is replaced by
    [HTTPException(500, "Database connection failed")]. *)
Definition get_db_connection : M connection :=
  try_except s2_connect
    (fun _ => raise (HTTPException 500 (Lit "Database connection failed"))).

(** [Resource(id=table['TABLE_NAME'], type=..., attributes={...})]: the
    resource built for one row of the metadata query. *)
Definition make_resource (table : row) : outcome Resource :=
  i <- getitem table "TABLE_NAME" ;;
  n <- getitem table "TABLE_NAME" ;;
  t <- getitem table "TABLE_TYPE" ;;
  c <- getitem table "TABLE_COMMENT" ;;
  a <- created_at table ;;
  Resource_init i "table"
    (list_to_map [("name", n); ("type", t); ("comment", c); ("created_at", a)]).

(** [for table in tables: ...; resources.append(resource)] *)
Fixpoint for_tables (tables : list row) (resources : list Resource)
  : outcome (list Resource) :=
  match tables with
  | [] => Return resources
  | table :: rest =>
      resource <- make_resource table ;;
      for_tables rest (resources ++ [resource])
  end.

(** The body of the [try] block of [list_resources]. *)
Definition list_resources_body : M (list Resource) :=
  assign_conn get_db_connection ;;;
  with_cursor (
    cur <~ cur_execute list_tables ;;
    let tables := fetchall cur in
    lift (for_tables tables [])).

(** [@app.get("/resources")] *)
Definition list_resources : M (list Resource) :=
  try_finally
    (try_except list_resources_body
       (fun e => raise (HTTPException 500 (StrOf e))))
    conn_close.

(** [row[key] = f"<binary data length={len(value)}>"] for a binary
    [value], any other value is left as it is. *)
Definition binary_placeholder (v : value) : value :=
  match v with
  | VBytes b | VByteArray b =>
      VStr ("<binary data length=" +:+ decimal (N.of_nat (length b)) +:+ ">")
  | _ => v
  end.

(** The two nested [for] loops over [rows] and [row.items()]. *)
Definition convert_rows (rows : list row) : list row :=
  map (fmap binary_placeholder) rows.

(** [not cur.fetchone()] *)
Definition not_found (c : cursor) : bool :=
  negb (truthy_opt (VDict <$> fetchone c)).

(** The body of the [try] block of [get_resource]. *)
Definition get_resource_body (resource_id : string) : M dict :=
  assign_conn get_db_connection ;;;
  with_cursor (
    cur <~ cur_execute (table_exists resource_id) ;;
    if not_found cur then
      raise (HTTPException 404 (Lit "Resource not found"))
    else
      cur <~ cur_execute (select_all resource_id) ;;
      let rows := fetchall cur in
      ret (data_result (convert_rows rows))).

(** [@app.get("/resources/{resource_id}")] *)
Definition get_resource (resource_id : string) : M dict :=
  try_finally
    (try_except (get_resource_body resource_id)
       (fun e => raise (HTTPException 500 (StrOf e))))
    conn_close.

(** The body of the [try] block of [execute_query]. *)
Definition execute_query_body (request : QueryRequest) : M dict :=
  assign_conn get_db_connection ;;;
  with_cursor (
    cur <~ (if truthy_opt (VDict <$> parameters request)
            then cur_execute {| sql := VStr (query request);
                                args := VDict <$> parameters request |}
            else cur_execute {| sql := VStr (query request); args := None |}) ;;
    if reports_description cur then
      let rows := fetchall cur in
      ret (data_result rows)
    else
      ret (affected_rows_result (rowcount cur))).

(** [@app.post("/query")] *)
Definition execute_query (request : QueryRequest) : M dict :=
  try_finally
    (try_except (execute_query_body request)
       (fun e => raise (HTTPException 400 (StrOf e))))
    conn_close.

(** The status line FastAPI answers with.  A raised [HTTPException]
    gives its status code, any other exception that leaves the handler
    500 (Internal Server Error).  A returned value is serialized by
    FastAPI after the handler has returned: 200 when it can be encoded,
    500 when it cannot.  The encoder belongs to FastAPI and is not in the
    repository; [encodable] stands for it. *)
Definition response_status {A} (encodable : A -> bool) (o : outcome A) : Z :=
  match o with
  | Return a => if encodable a then 200 else 500
  | Raise (HTTPException status_code _) => status_code
  | Raise _ => 500
  end.

End Http.

(* ===================================================================== *)
(** ** The tool front-end: src/singlestore_mcp_server/server.py *)
(* ===================================================================== *)

Module Mcp.

(** [types.ResourceContent(type=..., content=...)] *)
Record ResourceContent := mk_ResourceContent {
  content_type : string;
  content : json_text
}.

(** [types.TextContent(type=..., text=...)] *)
Record TextContent := mk_TextContent {
  text_type : string;
  text : json_text
}.

(** [get_db_connection()], the same function as in the HTTP file. *)
Definition get_db_connection : M connection :=
  try_except s2_connect
    (fun _ => raise (HTTPException 500 (Lit "Database connection failed"))).

(** [types.Resource(id=..., type=..., attributes=...)].  This is the class
    of the [mcp] library, not the [class Resource] the file declares and
    never uses: its required fields are [uri] and [name], and [id], [type]
    and [attributes] are none of its fields.  Whatever the arguments, the
    call raises pydantic's [ValidationError] for the missing fields. *)
Definition types_Resource (id_ : value) (type_ : string) (attributes_ : dict)
  : outcome Resource :=
  Raise (ValidationError "uri").

(** The resource built for one row of the metadata query. *)
Definition make_resource (table : row) : outcome Resource :=
  i <- getitem table "TABLE_NAME" ;;
  n <- getitem table "TABLE_NAME" ;;
  t <- getitem table "TABLE_TYPE" ;;
  c <- getitem table "TABLE_COMMENT" ;;
  a <- created_at table ;;
  types_Resource i "table"
    (list_to_map [("name", n); ("type", t); ("comment", c); ("created_at", a)]).

Fixpoint for_tables (tables : list row) (resources : list Resource)
  : outcome (list Resource) :=
  match tables with
  | [] => Return resources
  | table :: rest =>
      resource <- make_resource table ;;
      for_tables rest (resources ++ [resource])
  end.

(** The body of the [try] block of [handle_list_resources]. *)
Definition handle_list_resources_body : M (list Resource) :=
  assign_conn get_db_connection ;;;
  with_cursor (
    cur <~ cur_execute list_tables ;;
    let tables := fetchall cur in
    lift (for_tables tables [])).

(** [@server.list_resources()] *)
Definition handle_list_resources : M (list Resource) :=
  try_finally handle_list_resources_body conn_close.

(** [not cur.fetchone()] *)
Definition not_found (c : cursor) : bool :=
  negb (truthy_opt (VDict <$> fetchone c)).

(** The body of the [try] block of [handle_read_resource]. *)
Definition handle_read_resource_body (resource_id : string) : M ResourceContent :=
  assign_conn get_db_connection ;;;
  with_cursor (
    cur <~ cur_execute (table_exists resource_id) ;;
    if not_found cur then
      raise (ValueError (Lit "Resource not found"))
    else
      cur <~ cur_execute (select_all resource_id) ;;
      let rows := fetchall cur in
      c <~ lift (json_dumps (VDict (data_result rows))) ;;
      ret {| content_type := "application/json"; content := c |}).

(** [@server.read_resource()] *)
Definition handle_read_resource (resource_id : string) : M ResourceContent :=
  try_finally (handle_read_resource_body resource_id) conn_close.

(** The body of the [try] block of [handle_call_tool]. *)
Definition handle_call_tool_body (arguments : dict) : M (list TextContent) :=
  assign_conn get_db_connection ;;;
  with_cursor (
    cur <~ (if truthy_opt (arguments !! "parameters")
            then q <~ lift (getitem arguments "query") ;;
                 p <~ lift (getitem arguments "parameters") ;;
                 cur_execute {| sql := q; args := Some p |}
            else q <~ lift (getitem arguments "query") ;;
                 cur_execute {| sql := q; args := None |}) ;;
    if reports_description cur then
      let rows := fetchall cur in
      t <~ lift (json_dumps (VDict (data_result rows))) ;;
      ret [ {| text_type := "text"; text := t |} ]
    else
      t <~ lift (json_dumps (VDict (affected_rows_result (rowcount cur)))) ;;
      ret [ {| text_type := "text"; text := t |} ]).

(** [@server.call_tool()] *)
Definition handle_call_tool (name : string) (arguments : dict)
  : M (list TextContent) :=
  if negb (String.eqb name "execute_query") then
    raise (ValueError (Lit ("Unknown tool: " +:+ name)))
  else
    try_finally (handle_call_tool_body arguments) conn_close.

End Mcp.

(* ===================================================================== *)
(** ** What the specification says, in its own words *)
(* ===================================================================== *)

Module Spec.

(** One table of the current schema as [information_schema.TABLES]
    describes it: the name is a string, the creation time a timestamp or
    NULL; the declared type and the comment are passed through as the
    driver gives them. *)
Record table_info := mk_table_info {
  table_name : string;
  table_type : value;
  table_comment : value;
  create_time : option datetime
}.

(** The row of the metadata query that describes a table. *)
Definition describes (t : table_info) (r : row) : Prop :=
  r !! "TABLE_NAME" = Some (VStr (table_name t))
  /\ r !! "TABLE_TYPE" = Some (table_type t)
  /\ r !! "TABLE_COMMENT" = Some (table_comment t)
  /\ r !! "CREATE_TIME" =
       Some (match create_time t with Some d => VDatetime d | None => VNone end).

(** The Resource the Table Lister is to emit for a table: id the table
    name, type the constant "table", attributes name, declared type,
    comment and created_at (ISO-8601 string, or null). *)
Definition resource_of (t : table_info) : Resource :=
  {| id := table_name t;
     type := "table";
     attributes :=
       list_to_map
         [("name", VStr (table_name t));
          ("type", table_type t);
          ("comment", table_comment t);
          ("created_at",
            match create_time t with
            | Some d => VStr (isoformat d)
            | None => VNone
            end)] |}.

(** Parameters reach the driver only when they are supplied, that is,
    when the value given for them is truthy. *)
Definition passed (parameters : option value) : option value :=
  if truthy_opt parameters then parameters else None.

(** The statement the Query Executor is to hand to the driver: the
    caller's text, and the parameters next to it. *)
Definition query_statement (text : value) (parameters : option value) : statement :=
  {| sql := text; args := passed parameters |}.

(** The result of the Query Executor for a cursor: the rows when a column
    description is reported, the affected-row count otherwise. *)
Definition query_result (c : cursor) : dict :=
  if reports_description c then data_result (fetchall c)
  else affected_rows_result (rowcount c).

(** The binary placeholder for a value of [n] bytes. *)
Definition placeholder (n : nat) : value :=
  VStr ("<binary data length=" +:+ decimal (N.of_nat n) +:+ ">").

(** The handler gets as far as a cursor. *)
Definition reaches_cursor (db : env) : bool :=
  match connect_result db, cursor_result db with
  | None, None => true
  | _, _ => false
  end.

End Spec.

Import Spec.

(* ===================================================================== *)
(** ** Sample databases and requests *)
(* ===================================================================== *)

Module Samples.

(** A database that answers every statement with an empty result set. *)
Definition empty_schema : env :=
  {| connect_result := None;
     cursor_result := None;
     execute_result := fun _ _ =>
       inr {| description := Some ["TABLE_NAME"]; rows := []; rowcount := 0 |} |}.

(** A database that cannot be reached. *)
Definition unreachable : env :=
  {| connect_result := Some (DatabaseError "connection refused");
     cursor_result := None;
     execute_result := fun _ _ => inl (DatabaseError "not connected") |}.

(** A database that rejects every statement. *)
Definition rejecting : env :=
  {| connect_result := None;
     cursor_result := None;
     execute_result := fun _ _ => inl (DatabaseError "syntax error") |}.

Definition blob_row : row :=
  list_to_map [("id", VInt 1); ("payload", VBytes [Byte.x01; Byte.x02])].

Definition blob_row_converted : row :=
  list_to_map [("id", VInt 1); ("payload", VStr "<binary data length=2>")].

(** A schema with one table [blobs] holding one row with a binary
    column: the first statement on a connection (the existence check)
    finds the table, any later one returns its row. *)
Definition blobs : env :=
  {| connect_result := None;
     cursor_result := None;
     execute_result := fun history _ =>
       match history with
       | [] => inr {| description := Some ["TABLE_NAME"];
                      rows := [ {[ "TABLE_NAME" := VStr "blobs" ]} ];
                      rowcount := 1 |}
       | _ :: _ => inr {| description := Some ["id"; "payload"];
                          rows := [ blob_row ];
                          rowcount := 1 |}
       end |}.

(** A database on which every statement returns the row of [blobs]. *)
Definition blob_query : env :=
  {| connect_result := None;
     cursor_result := None;
     execute_result := fun _ _ =>
       inr {| description := Some ["id"; "payload"];
              rows := [ blob_row ];
              rowcount := 1 |} |}.

Definition users_info : table_info :=
  {| table_name := "users";
     table_type := VStr "BASE TABLE";
     table_comment := VStr "User accounts table";
     create_time := Some (mk_datetime 2024 3 20 10 0 0 0) |}.

Definition audit_info : table_info :=
  {| table_name := "audit";
     table_type := VStr "VIEW";
     table_comment := VStr "";
     create_time := None |}.

Definition users_row : row :=
  list_to_map [("TABLE_NAME", VStr "users"); ("TABLE_TYPE", VStr "BASE TABLE");
               ("TABLE_COMMENT", VStr "User accounts table");
               ("CREATE_TIME", VDatetime (mk_datetime 2024 3 20 10 0 0 0))].

Definition audit_row : row :=
  list_to_map [("TABLE_NAME", VStr "audit"); ("TABLE_TYPE", VStr "VIEW");
               ("TABLE_COMMENT", VStr ""); ("CREATE_TIME", VNone)].

(** A schema with the two tables [users] and [audit]. *)
Definition two_tables : env :=
  {| connect_result := None;
     cursor_result := None;
     execute_result := fun _ _ =>
       inr {| description := Some ["TABLE_NAME"; "TABLE_TYPE"; "TABLE_COMMENT"; "CREATE_TIME"];
              rows := [users_row; audit_row];
              rowcount := 2 |} |}.

Definition adults_sql : string := "SELECT * FROM users WHERE age > %s".

Definition adults_parameters : dict := {[ "age" := VInt 21 ]}.

Definition adults_request : QueryRequest :=
  {| query := adults_sql; parameters := Some adults_parameters |}.

Definition adults_arguments : dict :=
  list_to_map [("query", VStr adults_sql); ("parameters", VDict adults_parameters)].

Definition adults_rows : list row :=
  [ list_to_map [("id", VInt 1); ("name", VStr "John"); ("age", VInt 25)];
    list_to_map [("id", VInt 2); ("name", VStr "Jane"); ("age", VInt 23)] ].

Definition adults_cursor : cursor :=
  {| description := Some ["id"; "name"; "age"]; rows := adults_rows; rowcount := 2 |}.

(** A database on which every statement returns the two adult users. *)
Definition adults : env :=
  {| connect_result := None;
     cursor_result := None;
     execute_result := fun _ _ => inr adults_cursor |}.

Definition updated_cursor : cursor :=
  {| description := None; rows := []; rowcount := 3 |}.

(** A database on which every statement is an update of three rows. *)
Definition updating : env :=
  {| connect_result := None;
     cursor_result := None;
     execute_result := fun _ _ => inr updated_cursor |}.

Definition select_blobs_request : QueryRequest :=
  {| query := "SELECT * FROM blobs"; parameters := None |}.

Definition select_blobs_arguments : dict :=
  {[ "query" := VStr "SELECT * FROM blobs" ]}.

Definition update_arguments : dict :=
  {[ "query" := VStr "UPDATE users SET age = age + 1" ]}.

Definition update_request : QueryRequest :=
  {| query := "UPDATE users SET age = age + 1"; parameters := None |}.

End Samples.

(* ===================================================================== *)
(** ** Measures on traces and further samples *)
(* ===================================================================== *)

Module Trace.

(** Calls to [s2.connect], successful or not. *)
Fixpoint connect_attempts (t : list event) : nat :=
  match t with
  | [] => O
  | EConnect _ :: t' => S (connect_attempts t')
  | _ :: t' => connect_attempts t'
  end.

(** Calls to [conn.cursor()] that returned a cursor. *)
Fixpoint cursors_opened (t : list event) : nat :=
  match t with
  | [] => O
  | ECursor :: t' => S (cursors_opened t')
  | _ :: t' => cursors_opened t'
  end.

(** The frame of a request: one connection attempt; if it succeeds one
    cursor; if that succeeds the statements, the cursor's close and the
    connection's close. *)
Definition framed (db : env) (t : list event) : Prop :=
  t = match connect_result db, cursor_result db with
      | Some _, _ => [EConnect false]
      | None, Some _ => [EConnect true; EClose]
      | None, None =>
          [EConnect true; ECursor] ++ (EExecute <$> executed t)
            ++ [ECursorClose; EClose]
      end.

End Trace.

Module MoreSamples.

(** A row of the metadata query whose [CREATE_TIME] came back as text. *)
Definition text_time_row : row :=
  list_to_map [("TABLE_NAME", VStr "events"); ("TABLE_TYPE", VStr "BASE TABLE");
               ("TABLE_COMMENT", VStr ""); ("CREATE_TIME", VStr "2024-03-20 10:00:00")].

(** A schema whose second table has a textual [CREATE_TIME]. *)
Definition text_time_cursor : cursor :=
  {| description := Some ["TABLE_NAME"; "TABLE_TYPE"; "TABLE_COMMENT"; "CREATE_TIME"];
     rows := [Samples.users_row; text_time_row; Samples.audit_row];
     rowcount := 3 |}.

Definition text_time : env :=
  {| connect_result := None;
     cursor_result := None;
     execute_result := fun _ _ => inr text_time_cursor |}.

Definition two_tables_cursor : cursor :=
  {| description := Some ["TABLE_NAME"; "TABLE_TYPE"; "TABLE_COMMENT"; "CREATE_TIME"];
     rows := [Samples.users_row; Samples.audit_row];
     rowcount := 2 |}.

Definition found_cursor : cursor :=
  {| description := Some ["TABLE_NAME"];
     rows := [ {[ "TABLE_NAME" := VStr "blobs" ]} ];
     rowcount := 1 |}.

Definition blobs_cursor : cursor :=
  {| description := Some ["id"; "payload"];
     rows := [ Samples.blob_row ];
     rowcount := 1 |}.



(** A schema with a table [order items], found by the existence check
    but rejected when its name stands unquoted in the [SELECT]. *)
Definition order_items_cursor : cursor :=
  {| description := Some ["TABLE_NAME"];
     rows := [ {[ "TABLE_NAME" := VStr "order items" ]} ];
     rowcount := 1 |}.

Definition unquoted : env :=
  {| connect_result := None;
     cursor_result := None;
     execute_result := fun history _ =>
       match history with
       | [] => inr order_items_cursor
       | _ :: _ => inl (DatabaseError "syntax error near items")
       end |}.

(** A row of the metadata query whose [TABLE_NAME] came back as bytes. *)
Definition binary_name_row : row :=
  list_to_map [("TABLE_NAME", VBytes [Byte.x6c; Byte.x6f; Byte.x67; Byte.x73]);
               ("TABLE_TYPE", VStr "BASE TABLE");
               ("TABLE_COMMENT", VStr ""); ("CREATE_TIME", VNone)].

(** The resource built for it: the id decoded, the name still binary. *)
Definition binary_name_resource : Resource :=
  {| id := "logs";
     type := "table";
     attributes :=
       list_to_map [("name", VBytes [Byte.x6c; Byte.x6f; Byte.x67; Byte.x73]);
                    ("type", VStr "BASE TABLE");
                    ("comment", VStr ""); ("created_at", VNone)] |}.

Definition binary_name : env :=
  {| connect_result := None;
     cursor_result := None;
     execute_result := fun _ _ =>
       inr {| description := Some ["TABLE_NAME"; "TABLE_TYPE"; "TABLE_COMMENT"; "CREATE_TIME"];
              rows := [Samples.users_row; binary_name_row];
              rowcount := 2 |} |}.

(** Tool arguments without the ["query"] key. *)
Definition no_query_arguments : dict :=
  {[ "parameters" := VDict Samples.adults_parameters ]}.

End MoreSamples.

(* ===================================================================== *)
(** ** Connection discipline: the predicates *)
(* ===================================================================== *)

Module Discipline.

(** Events that neither open nor close a connection, whatever the number
    of connections open before them. *)
Definition quiet (evs : list event) : Prop :=
  forall n, open_connections n evs = Some n.

(** A computation that leaves [conn] alone and only adds quiet events. *)
Definition neutral {A} (m : M A) : Prop :=
  forall db st,
    conn (snd (m db st)) = conn st
    /\ exists evs, trace (snd (m db st)) = trace st ++ evs /\ quiet evs.

(** The local variable [conn] is bound exactly when one connection is
    open. *)
Definition tracked (st : state) : Prop :=
  match conn st with
  | None => open_connections 0 (trace st) = Some 0%nat
  | Some _ => open_connections 0 (trace st) = Some 1%nat
  end.

(** Started with [conn] unbound and no connection open, the computation
    ends with [conn] tracking the connection it may have opened. *)
Definition scoped {A} (m : M A) : Prop :=
  forall db st,
    conn st = None -> open_connections 0 (trace st) = Some 0%nat ->
    tracked (snd (m db st)).

End Discipline.

Import Discipline.

(* ===================================================================== *)
(** ** Connection discipline: every handler closes what it opens *)
(* ===================================================================== *)

Section ConnectionDiscipline.

Lemma open_connections_app n t u :
  open_connections n (t ++ u) =
  match open_connections n t with
  | Some k => open_connections k u
  | None => None
  end.
Proof.
  revert n. induction t as [|ev t IH]; intros n; [reflexivity|].
  destruct ev as [[]| | | |]; simpl; auto.
  destruct n; auto.
Qed.

Lemma quiet_nil : quiet [].
Proof. intros n. reflexivity. Qed.

Lemma quiet_app evs1 evs2 : quiet evs1 -> quiet evs2 -> quiet (evs1 ++ evs2).
Proof.
  intros H1 H2 n. rewrite open_connections_app, H1. apply H2.
Qed.

Lemma quiet_cursor : quiet [ECursor].
Proof. intros n. reflexivity. Qed.

Lemma quiet_cursor_close : quiet [ECursorClose].
Proof. intros n. reflexivity. Qed.

Lemma quiet_execute s : quiet [EExecute s].
Proof. intros n. reflexivity. Qed.

Lemma quiet_connect_failed : quiet [EConnect false].
Proof. intros n. reflexivity. Qed.

Lemma neutral_ret {A} (a : A) : neutral (ret a).
Proof.
  intros db st. split; [reflexivity|].
  exists []. simpl. rewrite app_nil_r. auto using quiet_nil.
Qed.

Lemma neutral_raise {A} e : neutral (@raise A e).
Proof.
  intros db st. split; [reflexivity|].
  exists []. simpl. rewrite app_nil_r. auto using quiet_nil.
Qed.

Lemma neutral_lift {A} (o : outcome A) : neutral (lift o).
Proof.
  intros db st. split; [reflexivity|].
  exists []. simpl. rewrite app_nil_r. auto using quiet_nil.
Qed.

Lemma neutral_bind {A B} (m : M A) (k : A -> M B) :
  neutral m -> (forall a, neutral (k a)) -> neutral (S2.bind m k).
Proof.
  intros Hm Hk db st. unfold S2.bind.
  destruct (Hm db st) as [Hc (evs & Ht & Hq)].
  destruct (m db st) as [[a|e] st1]; simpl in *; [|eauto].
  destruct (Hk a db st1) as [Hc' (evs' & Ht' & Hq')].
  split; [congruence|].
  exists (evs ++ evs'). rewrite Ht', Ht, app_assoc. auto using quiet_app.
Qed.

Lemma neutral_try_except {A} (m : M A) (h : exn -> M A) :
  neutral m -> (forall e, neutral (h e)) -> neutral (try_except m h).
Proof.
  intros Hm Hh db st. unfold try_except.
  destruct (Hm db st) as [Hc (evs & Ht & Hq)].
  destruct (m db st) as [[a|e] st1]; simpl in *; [eauto|].
  destruct (Hh e db st1) as [Hc' (evs' & Ht' & Hq')].
  split; [congruence|].
  exists (evs ++ evs'). rewrite Ht', Ht, app_assoc. auto using quiet_app.
Qed.

Lemma neutral_cur_execute s : neutral (cur_execute s).
Proof.
  intros db st. unfold cur_execute.
  destruct (execute_result db (executed (trace st)) s); simpl;
    (split; [reflexivity|]); exists [EExecute s]; auto using quiet_execute.
Qed.

Lemma neutral_with_cursor {A} (body : M A) :
  neutral body -> neutral (with_cursor body).
Proof.
  intros Hb db st. unfold with_cursor.
  destruct (cursor_result db).
  { split; [reflexivity|]. exists []. simpl. rewrite app_nil_r.
    auto using quiet_nil. }
  destruct (Hb db {| trace := trace st ++ [ECursor]; conn := conn st |})
    as [Hc (evs & Ht & Hq)].
  destruct (body db _) as [o st1]; simpl in *.
  split; [exact Hc|].
  exists ([ECursor] ++ evs ++ [ECursorClose]).
  rewrite Ht, <- !app_assoc.
  auto using quiet_app, quiet_cursor, quiet_cursor_close.
Qed.

Lemma neutral_if {A} (b : bool) (m1 m2 : M A) :
  neutral m1 -> neutral m2 -> neutral (if b then m1 else m2).
Proof. destruct b; auto. Qed.

Lemma tracked_neutral {A} (m : M A) db st :
  neutral m -> tracked st -> tracked (snd (m db st)).
Proof.
  intros Hm Hst. destruct (Hm db st) as [Hc (evs & Ht & Hq)].
  unfold tracked in *. rewrite Hc, Ht, open_connections_app.
  destruct (conn st); rewrite Hst; apply Hq.
Qed.

(** [conn = get_db_connection()]: either a connection is opened and bound
    to [conn], or none is opened and [conn] stays unbound. *)
Lemma scoped_connect : scoped (assign_conn Http.get_db_connection).
Proof.
  intros db st Hc Ho.
  unfold assign_conn, Http.get_db_connection, try_except, s2_connect, raise, tracked.
  destruct (connect_result db); simpl; rewrite ?Hc, open_connections_app, Ho;
    reflexivity.
Qed.

Lemma scoped_bind {A B} (m : M A) (k : A -> M B) :
  scoped m -> (forall a, neutral (k a)) -> scoped (S2.bind m k).
Proof.
  intros Hm Hk db st Hc Ho. unfold S2.bind.
  specialize (Hm db st Hc Ho).
  destruct (m db st) as [[a|e] st1]; simpl in *; [|exact Hm].
  apply tracked_neutral; auto.
Qed.

Lemma scoped_try_except {A} (m : M A) (h : exn -> M A) :
  scoped m -> (forall e, neutral (h e)) -> scoped (try_except m h).
Proof.
  intros Hm Hh db st Hc Ho. unfold try_except.
  specialize (Hm db st Hc Ho).
  destruct (m db st) as [[a|e] st1]; simpl in *; [exact Hm|].
  apply tracked_neutral; auto.
Qed.

(** The [finally: conn.close()] clause closes the connection [conn]
    tracks; with [conn] unbound there is nothing to close. *)
Lemma finally_close_balances {A} (m : M A) db :
  scoped m ->
  open_connections 0 (calls (try_finally m conn_close) db) = Some 0%nat.
Proof.
  intros Hm. unfold calls, run, try_finally, conn_close.
  specialize (Hm db initial eq_refl eq_refl). unfold tracked in Hm.
  destruct (m db initial) as [o st1]; simpl in *.
  destruct (conn st1); simpl; [|exact Hm].
  rewrite open_connections_app, Hm. reflexivity.
Qed.

End ConnectionDiscipline.

Create HintDb conn discriminated.
#[export] Hint Resolve neutral_ret neutral_raise neutral_lift neutral_cur_execute
  neutral_with_cursor neutral_if scoped_connect : conn.
#[export] Hint Resolve neutral_bind neutral_try_except scoped_bind scoped_try_except : conn.

(** C2. On both front-ends, whatever the database answers (connection
    refused, cursor refused, statement rejected, table absent, rows that
    cannot be processed), every handler ends with no connection open:
    the connection it opened has been closed when it returns or raises,
    and when opening failed there is none to close. *)
Theorem connection_closed_on_every_exit_path
    (db : env) (resource_id : string) (request : QueryRequest)
    (name : string) (arguments : dict) :
  open_connections 0 (calls Http.list_resources db) = Some 0%nat
  /\ open_connections 0 (calls (Http.get_resource resource_id) db) = Some 0%nat
  /\ open_connections 0 (calls (Http.execute_query request) db) = Some 0%nat
  /\ open_connections 0 (calls Mcp.handle_list_resources db) = Some 0%nat
  /\ open_connections 0 (calls (Mcp.handle_read_resource resource_id) db) = Some 0%nat
  /\ open_connections 0 (calls (Mcp.handle_call_tool name arguments) db) = Some 0%nat.
Proof.
  repeat split.
  - apply finally_close_balances. unfold Http.list_resources_body. eauto 40 with conn.
  - apply finally_close_balances. unfold Http.get_resource_body. eauto 40 with conn.
  - apply finally_close_balances. unfold Http.execute_query_body. eauto 40 with conn.
  - apply finally_close_balances. unfold Mcp.handle_list_resources_body.
    change Mcp.get_db_connection with Http.get_db_connection. eauto 40 with conn.
  - apply finally_close_balances. unfold Mcp.handle_read_resource_body.
    change Mcp.get_db_connection with Http.get_db_connection. eauto 40 with conn.
  - unfold Mcp.handle_call_tool.
    destruct (negb (String.eqb name "execute_query")); [reflexivity|].
    apply finally_close_balances. unfold Mcp.handle_call_tool_body.
    change Mcp.get_db_connection with Http.get_db_connection. eauto 40 with conn.
Qed.

(* ===================================================================== *)
(** ** Running the handlers *)
(* ===================================================================== *)

#[local] Arguments table_exists : simpl never.
#[local] Arguments select_all : simpl never.
#[local] Arguments list_tables : simpl never.
#[local] Arguments data_result : simpl never.
#[local] Arguments affected_rows_result : simpl never.
#[local] Arguments Http.convert_rows : simpl never.
#[local] Arguments json_dumps : simpl never.
#[local] Arguments truthy_opt : simpl never.
#[local] Arguments getitem : simpl never.
#[local] Arguments String.eqb : simpl never.
#[local] Arguments String.append : simpl never.

(** Unfold a handler down to the driver calls. *)
Ltac handler :=
  unfold result, calls, run,
    Http.list_resources, Http.list_resources_body,
    Http.get_resource, Http.get_resource_body,
    Http.execute_query, Http.execute_query_body,
    Mcp.handle_list_resources, Mcp.handle_list_resources_body,
    Mcp.handle_read_resource, Mcp.handle_read_resource_body,
    Mcp.handle_call_tool_body,
    Http.get_db_connection, Mcp.get_db_connection,
    try_finally, try_except, S2.bind, assign_conn, s2_connect,
    with_cursor, cur_execute, conn_close, raise, ret, lift, initial;
  simpl.

(** Use what is known of the database, one driver call at a time. *)
Ltac answer H := rewrite H; simpl.

Section RunningHttp.

Variable db : env.
Hypothesis connects : connect_result db = None.
Hypothesis opens_cursor : cursor_result db = None.

Lemma run_get_resource_absent resource_id cur :
  execute_result db [] (table_exists resource_id) = inr cur ->
  Http.not_found cur = true ->
  run (Http.get_resource resource_id) db =
    (Raise (HTTPException 500 (StrOf (HTTPException 404 (Lit "Resource not found")))),
     [EConnect true; ECursor; EExecute (table_exists resource_id);
      ECursorClose; EClose]).
Proof.
  intros Hcheck Habsent. handler.
  answer connects. answer opens_cursor. answer Hcheck. answer Habsent.
  reflexivity.
Qed.

Lemma run_get_resource_body_absent resource_id cur :
  execute_result db [] (table_exists resource_id) = inr cur ->
  Http.not_found cur = true ->
  run (Http.get_resource_body resource_id) db =
    (Raise (HTTPException 404 (Lit "Resource not found")),
     [EConnect true; ECursor; EExecute (table_exists resource_id); ECursorClose]).
Proof.
  intros Hcheck Habsent. handler.
  answer connects. answer opens_cursor. answer Hcheck. answer Habsent.
  reflexivity.
Qed.

Lemma run_get_resource_present resource_id cur cur' :
  execute_result db [] (table_exists resource_id) = inr cur ->
  Http.not_found cur = false ->
  execute_result db [table_exists resource_id] (select_all resource_id) = inr cur' ->
  run (Http.get_resource resource_id) db =
    (Return (data_result (Http.convert_rows (rows cur'))),
     [EConnect true; ECursor; EExecute (table_exists resource_id);
      EExecute (select_all resource_id); ECursorClose; EClose]).
Proof.
  intros Hcheck Hfound Hselect. handler.
  answer connects. answer opens_cursor. answer Hcheck. answer Hfound.
  answer Hselect. reflexivity.
Qed.

Lemma run_list_resources cur :
  execute_result db [] list_tables = inr cur ->
  run Http.list_resources db =
    (match Http.for_tables (rows cur) [] with
     | Return resources => Return resources
     | Raise e => Raise (HTTPException 500 (StrOf e))
     end,
     [EConnect true; ECursor; EExecute list_tables; ECursorClose; EClose]).
Proof.
  intros Hlist. handler.
  answer connects. answer opens_cursor. answer Hlist.
  unfold fetchall. destruct (Http.for_tables (rows cur) []); reflexivity.
Qed.

Lemma run_execute_query request cur :
  execute_result db [] (query_statement (VStr (query request))
                          (VDict <$> parameters request)) = inr cur ->
  run (Http.execute_query request) db =
    (Return (query_result cur),
     [EConnect true; ECursor;
      EExecute (query_statement (VStr (query request)) (VDict <$> parameters request));
      ECursorClose; EClose]).
Proof.
  unfold query_statement, passed, query_result. intros Hexec. handler.
  answer connects. answer opens_cursor.
  destruct (truthy_opt (VDict <$> parameters request)); simpl;
    answer Hexec; destruct (reports_description cur); reflexivity.
Qed.

Lemma run_execute_query_rejected request e :
  execute_result db [] (query_statement (VStr (query request))
                          (VDict <$> parameters request)) = inl e ->
  run (Http.execute_query request) db =
    (Raise (HTTPException 400 (StrOf e)),
     [EConnect true; ECursor;
      EExecute (query_statement (VStr (query request)) (VDict <$> parameters request));
      ECursorClose; EClose]).
Proof.
  unfold query_statement, passed. intros Hexec. handler.
  answer connects. answer opens_cursor.
  destruct (truthy_opt (VDict <$> parameters request)); simpl;
    answer Hexec; reflexivity.
Qed.

End RunningHttp.

Section RunningMcp.

Variable db : env.
Hypothesis connects : connect_result db = None.
Hypothesis opens_cursor : cursor_result db = None.

Lemma run_read_resource_absent resource_id cur :
  execute_result db [] (table_exists resource_id) = inr cur ->
  Mcp.not_found cur = true ->
  run (Mcp.handle_read_resource resource_id) db =
    (Raise (ValueError (Lit "Resource not found")),
     [EConnect true; ECursor; EExecute (table_exists resource_id);
      ECursorClose; EClose]).
Proof.
  intros Hcheck Habsent. handler.
  answer connects. answer opens_cursor. answer Hcheck. answer Habsent.
  reflexivity.
Qed.


Lemma run_handle_list_resources cur :
  execute_result db [] list_tables = inr cur ->
  run Mcp.handle_list_resources db =
    (Mcp.for_tables (rows cur) [],
     [EConnect true; ECursor; EExecute list_tables; ECursorClose; EClose]).
Proof.
  intros Hlist. handler.
  answer connects. answer opens_cursor. answer Hlist.
  unfold fetchall. destruct (Mcp.for_tables (rows cur) []); reflexivity.
Qed.

Lemma run_call_tool arguments q cur :
  arguments !! "query" = Some q ->
  execute_result db [] (query_statement q (arguments !! "parameters")) = inr cur ->
  run (Mcp.handle_call_tool "execute_query" arguments) db =
    (t <- json_dumps (VDict (query_result cur)) ;;
     Return [ {| Mcp.text_type := "text"; Mcp.text := t |} ],
     [EConnect true; ECursor;
      EExecute (query_statement q (arguments !! "parameters"));
      ECursorClose; EClose]).
Proof.
  unfold query_statement, passed, query_result. intros Hq Hexec.
  unfold Mcp.handle_call_tool. simpl. handler.
  answer connects. answer opens_cursor.
  unfold getitem. rewrite Hq.
  destruct (arguments !! "parameters") as [p|] eqn:Hp;
    [destruct (truthy_opt (Some p)) eqn:Hsupplied|
     change (truthy_opt None) with false in *];
    simpl; answer Hexec; unfold fetchall;
    destruct (reports_description cur); simpl;
    match goal with |- context [json_dumps ?v] => destruct (json_dumps v) end;
    reflexivity.
Qed.

End RunningMcp.

(* ===================================================================== *)
(** ** The list-building loop *)
(* ===================================================================== *)

Lemma make_resource_describes t r :
  describes t r -> Http.make_resource r = Return (resource_of t).
Proof.
  intros (Hname & Htype & Hcomment & Htime).
  unfold Http.make_resource, created_at, getitem, resource_of.
  rewrite Hname, Htype, Hcomment, Htime.
  destruct (create_time t); reflexivity.
Qed.

Lemma for_tables_describes ts rs :
  Forall2 describes ts rs ->
  forall resources,
    Http.for_tables rs resources = Return (resources ++ map resource_of ts).
Proof.
  induction 1 as [|t r ts rs Hd _ IH]; intros resources.
  - simpl. rewrite app_nil_r. reflexivity.
  - cbn [Http.for_tables map]. rewrite (make_resource_describes t r Hd).
    cbn [obind]. rewrite IH, <- app_assoc. reflexivity.
Qed.

Lemma tool_make_resource_never_returns (r : row) :
  exists e, Mcp.make_resource r = Raise e.
Proof.
  unfold Mcp.make_resource, Mcp.types_Resource.
  destruct (getitem r "TABLE_NAME"); cbn [obind]; eauto.
  destruct (getitem r "TABLE_TYPE"); cbn [obind]; eauto.
  destruct (getitem r "TABLE_COMMENT"); cbn [obind]; eauto.
  destruct (created_at r); cbn [obind]; eauto.
Qed.

Lemma tool_make_resource_describes t r :
  describes t r -> Mcp.make_resource r = Raise (ValidationError "uri").
Proof.
  intros (Hname & Htype & Hcomment & Htime).
  unfold Mcp.make_resource, Mcp.types_Resource, created_at, getitem.
  rewrite Hname, Htype, Hcomment, Htime.
  destruct (create_time t); reflexivity.
Qed.

Lemma tool_for_tables_first_row (r : row) (rs : list row) resources e :
  Mcp.make_resource r = Raise e ->
  Mcp.for_tables (r :: rs) resources = Raise e.
Proof. intros Hr. cbn [Mcp.for_tables]. rewrite Hr. reflexivity. Qed.

(* ===================================================================== *)
(** ** The Table Reader *)
(* ===================================================================== *)

(** C1 (the code departs from the claim). Reading a table that is absent
    from the schema over HTTP: the handler raises the 404 "Resource not
    found" inside its own [try] block, the [except Exception] clause of
    the same block catches it and raises a 500 whose detail is the text
    of the 404.  The response status is 500, not 404. *)
Theorem get_resource_absent_table_answers_500 (encodable : dict -> bool) :
  run (Http.get_resource "missing") Samples.empty_schema =
    (Raise (HTTPException 500 (StrOf (HTTPException 404 (Lit "Resource not found")))),
     [EConnect true; ECursor; EExecute (table_exists "missing");
      ECursorClose; EClose])
  /\ Http.response_status encodable (result (Http.get_resource "missing") Samples.empty_schema)
     = 500.
Proof. split; vm_compute; reflexivity. Qed.

(** The placeholder substitution of the HTTP reader, column by column. *)
Lemma binary_placeholder_binary v :
  is_binary v = true ->
  exists b, (v = VBytes b \/ v = VByteArray b)
            /\ Http.binary_placeholder v = placeholder (length b).
Proof.
  destruct v; try discriminate; intros _; eexists; split; eauto.
Qed.

Lemma binary_placeholder_other v :
  is_binary v = false -> Http.binary_placeholder v = v.
Proof. destruct v; try discriminate; reflexivity. Qed.

Lemma convert_rows_lookup (rs : list row) (i : nat) (r : row) (key : string) v :
  rs !! i = Some r -> r !! key = Some v ->
  exists r', Http.convert_rows rs !! i = Some r'
             /\ r' !! key = Some (Http.binary_placeholder v).
Proof.
  intros Hr Hv. exists (Http.binary_placeholder <$> r). split.
  - unfold Http.convert_rows. change map with (@fmap list _) .
    rewrite list_lookup_fmap, Hr. reflexivity.
  - rewrite lookup_fmap, Hv. reflexivity.
Qed.

(** C3 (the code departs from the claim). The table [blobs] has one row
    with a two-byte binary column.  Read over HTTP, the column comes back
    as the placeholder "<binary data length=2>".  Read through the tool
    protocol, the row is handed to [json.dumps] as the driver returned
    it, with the bytes still in place, and the call raises [TypeError]:
    [handle_read_resource] has no post-processing step. *)
Theorem read_resource_keeps_binary_columns :
  result (Http.get_resource "blobs") Samples.blobs
    = Return (data_result [Samples.blob_row_converted])
  /\ Samples.blob_row_converted !! "payload" = Some (placeholder 2)
  /\ result (Mcp.handle_read_resource "blobs") Samples.blobs = Raise TypeError
  /\ executed (calls (Mcp.handle_read_resource "blobs") Samples.blobs)
     = [table_exists "blobs"; select_all "blobs"].
Proof. repeat split; vm_compute; reflexivity. Qed.

(* ===================================================================== *)
(** ** Error statuses of the HTTP front-end *)
(* ===================================================================== *)

Lemma connection_failure_raises db e :
  connect_result db = Some e ->
  forall resource_id request,
    result Http.list_resources db = Raise (UnboundLocalError "conn")
    /\ result (Http.get_resource resource_id) db = Raise (UnboundLocalError "conn")
    /\ result (Http.execute_query request) db = Raise (UnboundLocalError "conn").
Proof.
  intros Hdown resource_id request.
  repeat split; handler; answer Hdown; reflexivity.
Qed.

(** C4. On each of the three HTTP routes a failure to open the database
    connection is answered with status 500: [get_db_connection] raises
    its 500, the [finally] clause then reads the unbound [conn], and the
    [UnboundLocalError] that leaves the handler is answered with 500 as
    any unhandled exception is.  A statement the driver rejects on POST
    /query is answered with status 400. *)
Theorem http_failure_statuses
    (db : env) (resource_id : string) (request : QueryRequest)
    (encodable : dict -> bool) (encodable_list : list Resource -> bool) :
  (forall e, connect_result db = Some e ->
     Http.response_status encodable_list (result Http.list_resources db) = 500
     /\ Http.response_status encodable (result (Http.get_resource resource_id) db) = 500
     /\ Http.response_status encodable (result (Http.execute_query request) db) = 500)
  /\ (forall e, connect_result db = None -> cursor_result db = None ->
        execute_result db []
          (query_statement (VStr (query request)) (VDict <$> parameters request))
          = inl e ->
        Http.response_status encodable (result (Http.execute_query request) db) = 400).
Proof.
  split.
  - intros e Hdown.
    destruct (connection_failure_raises db e Hdown resource_id request)
      as (-> & -> & ->).
    repeat split; reflexivity.
  - intros e Hconn Hcur Hexec. unfold result.
    rewrite (run_execute_query_rejected db Hconn Hcur request e Hexec).
    reflexivity.
Qed.

Lemma http_failure_statuses_witness :
  (Http.response_status (fun _ => true) (result Http.list_resources Samples.unreachable) = 500
   /\ Http.response_status (fun _ => true) (result (Http.get_resource "users") Samples.unreachable) = 500
   /\ Http.response_status (fun _ => true)
        (result (Http.execute_query Samples.adults_request) Samples.unreachable) = 500)
  /\ Http.response_status (fun _ => true)
       (result (Http.execute_query Samples.adults_request) Samples.rejecting) = 400.
Proof.
  split.
  - apply (proj1 (http_failure_statuses Samples.unreachable "users"
                    Samples.adults_request (fun _ => true) (fun _ => true))
             (DatabaseError "connection refused")).
    reflexivity.
  - apply (proj2 (http_failure_statuses Samples.rejecting "users"
                    Samples.adults_request (fun _ => true) (fun _ => true))
             (DatabaseError "syntax error")); reflexivity.
Defined.

(* ===================================================================== *)
(** ** The tool dispatcher *)
(* ===================================================================== *)

(** C7. A tool name other than "execute_query" makes [handle_call_tool]
    raise [ValueError("Unknown tool: <name>")] at once: the error names
    the tool, and no driver call is made (no connection, no statement). *)
Theorem unknown_tool_is_rejected (db : env) (name : string) (arguments : dict) :
  name <> "execute_query" ->
  run (Mcp.handle_call_tool name arguments) db =
    (Raise (ValueError (Lit ("Unknown tool: " +:+ name))), []).
Proof.
  intros Hname. unfold Mcp.handle_call_tool.
  destruct (String.eqb_spec name "execute_query") as [Heq|_]; [contradiction|].
  reflexivity.
Qed.

Lemma unknown_tool_is_rejected_witness :
  run (Mcp.handle_call_tool "drop_table" Samples.adults_arguments) Samples.empty_schema =
    (Raise (ValueError (Lit "Unknown tool: drop_table")), []).
Proof.
  apply (unknown_tool_is_rejected Samples.empty_schema "drop_table"
           Samples.adults_arguments).
  discriminate.
Defined.

(* ===================================================================== *)
(** ** The existence check comes first *)
(* ===================================================================== *)

(** Case analysis on everything the driver may answer. *)
Ltac driver_cases :=
  repeat match goal with
  | |- context [match connect_result ?d with _ => _ end] =>
      destruct (connect_result d); simpl
  | |- context [match cursor_result ?d with _ => _ end] =>
      destruct (cursor_result d); simpl
  | |- context [match execute_result ?d ?h ?s with _ => _ end] =>
      destruct (execute_result d h s); simpl
  | |- context [match json_dumps ?v with _ => _ end] =>
      destruct (json_dumps v); simpl
  | |- context [if ?b then _ else _] => destruct b; simpl
  end.

Lemma not_found_no_rows cur :
  rows cur = [] -> Http.not_found cur = true /\ Mcp.not_found cur = true.
Proof.
  intros Hrows. unfold Http.not_found, Mcp.not_found, fetchone.
  rewrite Hrows. split; reflexivity.
Qed.

Lemma select_all_is_not_the_check resource_id :
  select_all resource_id <> table_exists resource_id.
Proof. discriminate. Qed.

(** C6 (the code departs from the last clause of the claim). On both
    front-ends the statements a read request executes are an initial
    segment of: existence check (the table name bound as its one
    parameter), then [SELECT * FROM <name>]; so the check always runs
    first.  When the check finds no row, it is the only statement
    executed and the [SELECT] is never run.  The request then fails: on
    the tool front-end with the not-found error
    [ValueError("Resource not found")]; over HTTP the body of the handler
    raises the not-found error [HTTPException(404, "Resource not found")],
    but the request ends with the [HTTPException(500, ...)] into which
    the handler's [except Exception] clause turns it. *)
Theorem existence_check_precedes_read (db : env) (resource_id : string) :
  (executed (calls (Http.get_resource resource_id) db)
     `prefix_of` [table_exists resource_id; select_all resource_id]
   /\ executed (calls (Mcp.handle_read_resource resource_id) db)
     `prefix_of` [table_exists resource_id; select_all resource_id])
  /\ (forall cur,
        connect_result db = None -> cursor_result db = None ->
        execute_result db [] (table_exists resource_id) = inr cur ->
        rows cur = [] ->
        executed (calls (Http.get_resource resource_id) db) = [table_exists resource_id]
        /\ executed (calls (Mcp.handle_read_resource resource_id) db)
           = [table_exists resource_id]
        /\ (select_all resource_id
               ∉ executed (calls (Http.get_resource resource_id) db))
        /\ (select_all resource_id
               ∉ executed (calls (Mcp.handle_read_resource resource_id) db))
        /\ result (Http.get_resource_body resource_id) db
           = Raise (HTTPException 404 (Lit "Resource not found"))
        /\ result (Http.get_resource resource_id) db
           = Raise (HTTPException 500
                      (StrOf (HTTPException 404 (Lit "Resource not found"))))
        /\ result (Mcp.handle_read_resource resource_id) db
           = Raise (ValueError (Lit "Resource not found"))).
Proof.
  split.
  - split; handler; driver_cases;
      solve [ by exists [table_exists resource_id; select_all resource_id]
            | by exists [select_all resource_id]
            | by exists [] ].
  - intros cur Hconn Hcur Hcheck Hrows.
    destruct (not_found_no_rows cur Hrows) as [Hhttp Hmcp].
    unfold result, calls.
    rewrite (run_get_resource_absent db Hconn Hcur resource_id cur Hcheck Hhttp).
    rewrite (run_get_resource_body_absent db Hconn Hcur resource_id cur Hcheck Hhttp).
    rewrite (run_read_resource_absent db Hconn Hcur resource_id cur Hcheck Hmcp).
    simpl. repeat split; eauto.
    + intros Hin%list_elem_of_singleton.
      exact (select_all_is_not_the_check resource_id Hin).
    + intros Hin%list_elem_of_singleton.
      exact (select_all_is_not_the_check resource_id Hin).
Qed.

Lemma existence_check_precedes_read_witness :
  executed (calls (Http.get_resource "missing") Samples.empty_schema)
    = [table_exists "missing"]
  /\ executed (calls (Mcp.handle_read_resource "missing") Samples.empty_schema)
     = [table_exists "missing"]
  /\ (select_all "missing"
         ∉ executed (calls (Http.get_resource "missing") Samples.empty_schema))
  /\ (select_all "missing"
         ∉ executed (calls (Mcp.handle_read_resource "missing") Samples.empty_schema))
  /\ result (Http.get_resource_body "missing") Samples.empty_schema
     = Raise (HTTPException 404 (Lit "Resource not found"))
  /\ result (Http.get_resource "missing") Samples.empty_schema
     = Raise (HTTPException 500
                (StrOf (HTTPException 404 (Lit "Resource not found"))))
  /\ result (Mcp.handle_read_resource "missing") Samples.empty_schema
     = Raise (ValueError (Lit "Resource not found")).
Proof.
  apply (proj2 (existence_check_precedes_read Samples.empty_schema "missing")
           {| description := Some ["TABLE_NAME"]; rows := []; rowcount := 0 |});
    reflexivity.
Defined.

(* ===================================================================== *)
(** ** The Query Executor *)
(* ===================================================================== *)

Lemma passed_supplied (p : option value) :
  truthy_opt p = true -> passed p = p.
Proof. unfold passed. intros ->. reflexivity. Qed.

Lemma passed_omitted (p : option value) :
  truthy_opt p = false -> passed p = None.
Proof. unfold passed. intros ->. reflexivity. Qed.

(** C8. The one statement the Query Executor hands to the driver carries
    the caller's query as its text, unchanged, on both front-ends: the
    parameters never enter the text.  When parameters are supplied they
    travel next to the text as the second argument of [execute]; when
    they are not, the text is executed alone.  (Without a connection or a
    cursor nothing is handed to the driver.) *)
Theorem statement_text_is_the_callers_query
    (db : env) (request : QueryRequest) (arguments : dict) (q : value) :
  arguments !! "query" = Some q ->
  executed (calls (Http.execute_query request) db) =
    (if reaches_cursor db
     then [ {| sql := VStr (query request);
               args := passed (VDict <$> parameters request) |} ]
     else [])
  /\ executed (calls (Mcp.handle_call_tool "execute_query" arguments) db) =
    (if reaches_cursor db
     then [ {| sql := q; args := passed (arguments !! "parameters") |} ]
     else []).
Proof.
  intros Hq. unfold reaches_cursor, passed. split.
  - handler.
    destruct (connect_result db); simpl; [reflexivity|].
    destruct (cursor_result db); simpl; [reflexivity|].
    destruct (truthy_opt (VDict <$> parameters request)); simpl;
      driver_cases; reflexivity.
  - unfold Mcp.handle_call_tool. simpl. handler.
    destruct (connect_result db); simpl; [reflexivity|].
    destruct (cursor_result db); simpl; [reflexivity|].
    unfold getitem. rewrite Hq.
    destruct (arguments !! "parameters") as [p|];
      [destruct (truthy_opt (Some p))|change (truthy_opt None) with false];
      simpl; driver_cases; reflexivity.
Qed.

Lemma statement_text_is_the_callers_query_witness :
  executed (calls (Http.execute_query Samples.adults_request) Samples.empty_schema) =
    [ {| sql := VStr "SELECT * FROM users WHERE age > %s";
         args := Some (VDict {[ "age" := VInt 21 ]}) |} ]
  /\ executed (calls (Mcp.handle_call_tool "execute_query" Samples.adults_arguments)
                 Samples.empty_schema) =
    [ {| sql := VStr "SELECT * FROM users WHERE age > %s";
         args := Some (VDict {[ "age" := VInt 21 ]}) |} ].
Proof.
  apply (statement_text_is_the_callers_query Samples.empty_schema
           Samples.adults_request Samples.adults_arguments
           (VStr Samples.adults_sql)).
  reflexivity.
Defined.

(** C10. Parameters that are present but empty are handled as parameters
    that are absent.  Over HTTP the request with [parameters = {}] runs
    exactly as the request with [parameters = None]; through the tool
    protocol the arguments with ["parameters": {}] run exactly as the
    same arguments without the key.  In both cases, once a cursor is
    there, the statement is executed, once, and without a second
    argument: the driver's binding step is not invoked. *)
Theorem empty_parameters_as_omitted
    (db : env) (q : string) (name : string) (arguments : dict) :
  run (Http.execute_query {| query := q; parameters := Some ∅ |}) db
    = run (Http.execute_query {| query := q; parameters := None |}) db
  /\ run (Mcp.handle_call_tool name (<["parameters" := VDict ∅]> arguments)) db
     = run (Mcp.handle_call_tool name (delete "parameters" arguments)) db
  /\ executed (calls (Http.execute_query {| query := q; parameters := Some ∅ |}) db)
     = (if reaches_cursor db then [ {| sql := VStr q; args := None |} ] else [])
  /\ executed (calls (Mcp.handle_call_tool "execute_query"
                        (<["parameters" := VDict ∅]> arguments)) db)
     = match arguments !! "query" with
       | Some text =>
           if reaches_cursor db then [ {| sql := text; args := None |} ] else []
       | None => []
       end.
Proof.
  assert (Hbody : Mcp.handle_call_tool_body (<["parameters" := VDict ∅]> arguments)
                  = Mcp.handle_call_tool_body (delete "parameters" arguments)).
  { unfold Mcp.handle_call_tool_body, getitem.
    rewrite lookup_insert_eq, lookup_delete_eq.
    rewrite lookup_insert_ne, lookup_delete_ne by discriminate.
    reflexivity. }
  split; [|split; [|split]].
  - reflexivity.
  - unfold Mcp.handle_call_tool. rewrite Hbody. reflexivity.
  - handler. change (truthy_opt (Some (VDict ∅))) with false.
    unfold reaches_cursor.
    destruct (connect_result db); simpl; [reflexivity|].
    destruct (cursor_result db); simpl; [reflexivity|].
    driver_cases; reflexivity.
  - unfold Mcp.handle_call_tool. simpl. handler.
    rewrite lookup_insert_eq.
    change (truthy_opt (Some (VDict ∅))) with false.
    unfold getitem. rewrite lookup_insert_ne by discriminate.
    unfold reaches_cursor.
    destruct (connect_result db); simpl;
      [destruct (arguments !! "query"); reflexivity|].
    destruct (cursor_result db); simpl;
      [destruct (arguments !! "query"); reflexivity|].
    destruct (arguments !! "query"); simpl; driver_cases; reflexivity.
Qed.

Lemma data_result_shape (rs : list row) :
  data_result rs !! "data" = Some (VList (VDict <$> rs))
  /\ data_result rs !! "affected_rows" = None.
Proof. split; reflexivity. Qed.

Lemma affected_rows_result_shape (n : Z) :
  affected_rows_result n !! "affected_rows" = Some (VInt n)
  /\ affected_rows_result n !! "data" = None.
Proof. split; reflexivity. Qed.

Lemma data_result_serializable (rs : list row) :
  json_serializable (VDict (data_result rs))
  = forallb json_serializable (VDict <$> rs) && true.
Proof. reflexivity. Qed.

Lemma json_dumps_data_result (rs : list row) :
  forallb json_serializable (VDict <$> rs) = true ->
  json_dumps (VDict (data_result rs)) = Return (JsonOf (VDict (data_result rs))).
Proof.
  intros Hrows. unfold json_dumps.
  rewrite data_result_serializable, Hrows. reflexivity.
Qed.

Lemma json_dumps_affected_rows_result (n : Z) :
  json_dumps (VDict (affected_rows_result n))
  = Return (JsonOf (VDict (affected_rows_result n))).
Proof. reflexivity. Qed.

(** C5 (the code departs from the claim on the tool front-end). A
    query whose rows hold a binary column, executed without error: the
    driver reports a column description, and over HTTP the handler returns
    exactly [{"data": rows}] with the fetched rows.  Through the tool
    protocol the same rows are given to [json.dumps] as the driver
    returned them; it raises [TypeError], and the call returns neither
    shape, although the statement has been executed. *)
Theorem call_tool_binary_rows_raise :
  (exists cur,
      execute_result Samples.blob_query []
        (query_statement (VStr "SELECT * FROM blobs") None) = inr cur
      /\ reports_description cur = true
      /\ rows cur = [Samples.blob_row])
  /\ result (Http.execute_query Samples.select_blobs_request) Samples.blob_query
     = Return (data_result [Samples.blob_row])
  /\ result (Mcp.handle_call_tool "execute_query" Samples.select_blobs_arguments)
       Samples.blob_query = Raise TypeError
  /\ executed (calls (Mcp.handle_call_tool "execute_query"
                        Samples.select_blobs_arguments) Samples.blob_query)
     = [ {| sql := VStr "SELECT * FROM blobs"; args := None |} ]
  /\ forall contents,
       result (Mcp.handle_call_tool "execute_query" Samples.select_blobs_arguments)
         Samples.blob_query <> Return contents.
Proof.
  split; [eexists; repeat split; reflexivity|].
  split; [vm_compute; reflexivity|].
  assert (H : result (Mcp.handle_call_tool "execute_query" Samples.select_blobs_arguments)
                Samples.blob_query = Raise TypeError) by (vm_compute; reflexivity).
  split; [exact H|].
  split; [vm_compute; reflexivity|].
  intros contents. rewrite H. discriminate.
Qed.

(** Where the rows can be encoded the two shapes are as they should be.
    Once the statement has been executed, the HTTP handler returns
    exactly [{"data": rows}] with all fetched rows when the driver reports
    a column description, exactly [{"affected_rows": n}] with the driver's
    row count otherwise.  The tool returns one text block with the JSON
    encoding of [{"affected_rows": n}] when no description is reported,
    and, when one is reported and the fetched rows are JSON serializable,
    one text block with the JSON encoding of [{"data": rows}]. *)
Lemma query_result_has_one_shape
    (db : env) (request : QueryRequest) (arguments : dict) (q : value)
    (cur cur' : cursor) :
  connect_result db = None -> cursor_result db = None ->
  execute_result db []
    (query_statement (VStr (query request)) (VDict <$> parameters request))
    = inr cur ->
  arguments !! "query" = Some q ->
  execute_result db [] (query_statement q (arguments !! "parameters")) = inr cur' ->
  (reports_description cur = true ->
     result (Http.execute_query request) db = Return (data_result (rows cur)))
  /\ (reports_description cur = false ->
        result (Http.execute_query request) db
        = Return (affected_rows_result (rowcount cur)))
  /\ (reports_description cur' = true ->
        forallb json_serializable (VDict <$> rows cur') = true ->
        result (Mcp.handle_call_tool "execute_query" arguments) db
        = Return [ {| Mcp.text_type := "text";
                      Mcp.text := JsonOf (VDict (data_result (rows cur'))) |} ])
  /\ (reports_description cur' = false ->
        result (Mcp.handle_call_tool "execute_query" arguments) db
        = Return [ {| Mcp.text_type := "text";
                      Mcp.text := JsonOf (VDict (affected_rows_result (rowcount cur'))) |} ])
  /\ (forall rs, data_result rs !! "data" = Some (VList (VDict <$> rs))
                 /\ data_result rs !! "affected_rows" = None)
  /\ (forall n, affected_rows_result n !! "affected_rows" = Some (VInt n)
                /\ affected_rows_result n !! "data" = None).
Proof.
  intros Hconn Hcur Hexec Hq Hexec'. unfold result.
  rewrite (run_execute_query db Hconn Hcur request cur Hexec).
  rewrite (run_call_tool db Hconn Hcur arguments q cur' Hq Hexec').
  unfold query_result, fetchall. simpl.
  split; [intros ->; reflexivity|].
  split; [intros ->; reflexivity|].
  split; [intros -> Hrows; rewrite (json_dumps_data_result _ Hrows); reflexivity|].
  split; [intros ->; rewrite json_dumps_affected_rows_result; reflexivity|].
  split; [apply data_result_shape | apply affected_rows_result_shape].
Qed.

Lemma query_result_has_one_shape_witness :
  result (Http.execute_query Samples.adults_request) Samples.adults
    = Return (data_result Samples.adults_rows)
  /\ result (Mcp.handle_call_tool "execute_query" Samples.adults_arguments) Samples.adults
     = Return [ {| Mcp.text_type := "text";
                   Mcp.text := JsonOf (VDict (data_result Samples.adults_rows)) |} ]
  /\ result (Http.execute_query Samples.update_request) Samples.updating
     = Return (affected_rows_result 3)
  /\ result (Mcp.handle_call_tool "execute_query" Samples.update_arguments) Samples.updating
     = Return [ {| Mcp.text_type := "text";
                   Mcp.text := JsonOf (VDict (affected_rows_result 3)) |} ].
Proof.
  destruct (query_result_has_one_shape Samples.adults Samples.adults_request
              Samples.adults_arguments (VStr Samples.adults_sql)
              Samples.adults_cursor Samples.adults_cursor
              eq_refl eq_refl eq_refl eq_refl eq_refl)
    as (Hdata & _ & Hdata' & _).
  destruct (query_result_has_one_shape Samples.updating Samples.update_request
              Samples.update_arguments (VStr "UPDATE users SET age = age + 1")
              Samples.updated_cursor Samples.updated_cursor
              eq_refl eq_refl eq_refl eq_refl eq_refl)
    as (_ & Hcount & _ & Hcount' & _).
  split; [apply Hdata; reflexivity|].
  split; [apply Hdata'; reflexivity|].
  split; [apply Hcount; reflexivity|].
  apply Hcount'; reflexivity.
Defined.

(* ===================================================================== *)
(** ** The Table Lister *)
(* ===================================================================== *)

Lemma resource_of_fields (t : table_info) :
  id (resource_of t) = table_name t
  /\ type (resource_of t) = "table"
  /\ attributes (resource_of t) !! "name" = Some (VStr (table_name t))
  /\ attributes (resource_of t) !! "type" = Some (table_type t)
  /\ attributes (resource_of t) !! "comment" = Some (table_comment t)
  /\ attributes (resource_of t) !! "created_at" =
       Some (match create_time t with
             | Some d => VStr (isoformat d)
             | None => VNone
             end).
Proof. repeat split. Qed.

(** C9 (the code departs from the claim on the tool front-end). Over
    HTTP the Table Lister turns the rows of the metadata query into
    Resources one for one and in the order the database returned them:
    the Resource of a row has the table name as id, the constant "table"
    as type, and as attributes the name, the declared type, the comment
    and, under created_at, the creation time in ISO-8601 form, or null
    when the row has none.  The tool front-end builds the same keyword
    arguments but gives them to the [mcp] library's [types.Resource],
    which has none of these fields: with at least one table in the schema
    [handle_list_resources] raises [ValidationError] at the first row and
    emits no Resource at all. *)
Theorem list_resources_one_resource_per_row
    (db : env) (cur : cursor) (tables : list table_info) :
  connect_result db = None -> cursor_result db = None ->
  execute_result db [] list_tables = inr cur ->
  Forall2 describes tables (rows cur) ->
  result Http.list_resources db = Return (map resource_of tables)
  /\ result Mcp.handle_list_resources db
     = match tables with
       | [] => Return []
       | _ :: _ => Raise (ValidationError "uri")
       end
  /\ Forall2 (fun t r =>
       id r = table_name t
       /\ type r = "table"
       /\ attributes r !! "name" = Some (VStr (table_name t))
       /\ attributes r !! "type" = Some (table_type t)
       /\ attributes r !! "comment" = Some (table_comment t)
       /\ attributes r !! "created_at" =
            Some (match create_time t with
                  | Some d => VStr (isoformat d)
                  | None => VNone
                  end))
       tables (map resource_of tables).
Proof.
  intros Hconn Hcur Hlist Hrows. unfold result.
  rewrite (run_list_resources db Hconn Hcur cur Hlist).
  rewrite (run_handle_list_resources db Hconn Hcur cur Hlist).
  rewrite (for_tables_describes tables (rows cur) Hrows).
  simpl. split; [reflexivity|]. split.
  - destruct Hrows as [|t r ts rs Hd _]; [reflexivity|].
    rewrite (tool_for_tables_first_row r rs []
               (ValidationError "uri") (tool_make_resource_describes t r Hd)).
    reflexivity.
  - clear. induction tables as [|t ts IH]; constructor; auto.
    apply resource_of_fields.
Qed.

Lemma list_resources_one_resource_per_row_witness :
  result Http.list_resources Samples.two_tables
    = Return [resource_of Samples.users_info; resource_of Samples.audit_info]
  /\ result Mcp.handle_list_resources Samples.two_tables
     = Raise (ValidationError "uri")
  /\ attributes (resource_of Samples.users_info) !! "created_at"
     = Some (VStr "2024-03-20T10:00:00")
  /\ attributes (resource_of Samples.audit_info) !! "created_at" = Some VNone.
Proof.
  destruct (list_resources_one_resource_per_row Samples.two_tables
              {| description := Some ["TABLE_NAME"; "TABLE_TYPE"; "TABLE_COMMENT"; "CREATE_TIME"];
                 rows := [Samples.users_row; Samples.audit_row];
                 rowcount := 2 |}
              [Samples.users_info; Samples.audit_info]
              eq_refl eq_refl eq_refl) as (Hhttp & Hmcp & _).
  { repeat constructor. }
  repeat split; assumption || reflexivity.
Defined.

(* ===================================================================== *)
(** ** Closing is the last driver call *)
(* ===================================================================== *)

(** Case analysis on the pure steps of a handler as well. *)
Ltac outcome_cases :=
  repeat match goal with
  | |- context [match Http.for_tables ?r ?a with _ => _ end] =>
      destruct (Http.for_tables r a); simpl
  | |- context [match Mcp.for_tables ?r ?a with _ => _ end] =>
      destruct (Mcp.for_tables r a); simpl
  | |- context [match getitem ?d ?k with _ => _ end] =>
      destruct (getitem d k); simpl
  | _ => progress driver_cases
  end.

Ltac closes_last :=
  handler; outcome_cases;
  solve [ reflexivity
        | intros Hopened; apply list_elem_of_singleton in Hopened; discriminate
        | intros Hopened; apply elem_of_nil in Hopened; contradiction ].

(** Whenever a handler has opened a connection, [conn.close()] is the
    last call it makes to the driver. *)
Lemma close_is_the_last_call
    (db : env) (resource_id : string) (request : QueryRequest)
    (name : string) (arguments : dict) :
  (EConnect true ∈ calls Http.list_resources db ->
     last (calls Http.list_resources db) = Some EClose)
  /\ (EConnect true ∈ calls (Http.get_resource resource_id) db ->
        last (calls (Http.get_resource resource_id) db) = Some EClose)
  /\ (EConnect true ∈ calls (Http.execute_query request) db ->
        last (calls (Http.execute_query request) db) = Some EClose)
  /\ (EConnect true ∈ calls Mcp.handle_list_resources db ->
        last (calls Mcp.handle_list_resources db) = Some EClose)
  /\ (EConnect true ∈ calls (Mcp.handle_read_resource resource_id) db ->
        last (calls (Mcp.handle_read_resource resource_id) db) = Some EClose)
  /\ (EConnect true ∈ calls (Mcp.handle_call_tool name arguments) db ->
        last (calls (Mcp.handle_call_tool name arguments) db) = Some EClose).
Proof.
  repeat split; try closes_last.
  unfold Mcp.handle_call_tool.
  destruct (negb (String.eqb name "execute_query")); closes_last.
Qed.

(* ===================================================================== *)
(** ** What each HTTP route can answer *)
(* ===================================================================== *)

(** Whatever the database does, [GET /resources] and
    [GET /resources/{id}] answer 200 or 500 and nothing else; 404 in
    particular is never the status of a read. *)
Theorem read_routes_answer_200_or_500
    (db : env) (resource_id : string)
    (encodable : dict -> bool) (encodable_list : list Resource -> bool) :
  (Http.response_status encodable_list (result Http.list_resources db) = 200
   \/ Http.response_status encodable_list (result Http.list_resources db) = 500)
  /\ (Http.response_status encodable (result (Http.get_resource resource_id) db) = 200
      \/ Http.response_status encodable (result (Http.get_resource resource_id) db) = 500)
  /\ Http.response_status encodable (result (Http.get_resource resource_id) db) <> 404.
Proof.
  assert (Hread : Http.response_status encodable (result (Http.get_resource resource_id) db) = 200
                  \/ Http.response_status encodable (result (Http.get_resource resource_id) db) = 500)
    by (handler; outcome_cases; auto).
  split; [handler; outcome_cases; auto|].
  split; [exact Hread|].
  destruct Hread as [-> | ->]; discriminate.
Qed.

(** [POST /query] answers 500 when the connection cannot be opened.
    Once it is open, every failure of the handler, a refused cursor
    included, is answered with 400; and when the handler returns, the
    answer is 200 if FastAPI can encode the returned value and 500 if it
    cannot. *)
Theorem query_route_statuses
    (db : env) (request : QueryRequest) (encodable : dict -> bool) :
  (is_Some (connect_result db)
   /\ Http.response_status encodable (result (Http.execute_query request) db) = 500)
  \/ (connect_result db = None
      /\ ((exists e, result (Http.execute_query request) db = Raise e
                     /\ Http.response_status encodable
                          (result (Http.execute_query request) db) = 400)
          \/ (exists d, result (Http.execute_query request) db = Return d
                        /\ Http.response_status encodable
                             (result (Http.execute_query request) db)
                           = if encodable d then 200 else 500))).
Proof.
  handler. destruct (connect_result db) as [e|]; simpl.
  - left. eauto.
  - right. split; [reflexivity|].
    destruct (cursor_result db); simpl; [left; eauto|].
    destruct (truthy_opt (VDict <$> parameters request)); simpl;
      (destruct (execute_result db [] _) as [e|cur]; simpl; [left; eauto|]);
      destruct (reports_description cur); simpl; right; eauto.
Qed.

(* ===================================================================== *)
(** ** The tool front-end without a database *)
(* ===================================================================== *)

(** When the connection cannot be opened, each handler of the tool
    front-end ends with [UnboundLocalError] for [conn], raised by its
    [finally] clause: neither the driver's error nor the "Database
    connection failed" of [get_db_connection] reaches the caller.  One
    connection attempt is all that happens. *)
Theorem tool_connection_failure
    (db : env) (e : exn) (resource_id : string) (arguments : dict) :
  connect_result db = Some e ->
  run Mcp.handle_list_resources db
    = (Raise (UnboundLocalError "conn"), [EConnect false])
  /\ run (Mcp.handle_read_resource resource_id) db
     = (Raise (UnboundLocalError "conn"), [EConnect false])
  /\ run (Mcp.handle_call_tool "execute_query" arguments) db
     = (Raise (UnboundLocalError "conn"), [EConnect false]).
Proof.
  intros Hdown. repeat split.
  - handler. answer Hdown. reflexivity.
  - handler. answer Hdown. reflexivity.
  - unfold Mcp.handle_call_tool. simpl. handler. answer Hdown. reflexivity.
Qed.

Lemma tool_connection_failure_witness :
  run Mcp.handle_list_resources Samples.unreachable
    = (Raise (UnboundLocalError "conn"), [EConnect false])
  /\ run (Mcp.handle_read_resource "users") Samples.unreachable
     = (Raise (UnboundLocalError "conn"), [EConnect false])
  /\ run (Mcp.handle_call_tool "execute_query" Samples.adults_arguments)
       Samples.unreachable
     = (Raise (UnboundLocalError "conn"), [EConnect false]).
Proof.
  apply (tool_connection_failure Samples.unreachable
           (DatabaseError "connection refused") "users" Samples.adults_arguments).
  reflexivity.
Defined.

(* ===================================================================== *)
(** ** Arguments of the tool *)
(* ===================================================================== *)

(** A call of [execute_query] without the ["query"] argument is noticed
    only after the connection and the cursor have been opened: the
    handler raises [KeyError] for the key, executes no statement, and
    closes cursor and connection, whether parameters are given or not. *)
Theorem call_tool_without_query (db : env) (arguments : dict) :
  connect_result db = None -> cursor_result db = None ->
  arguments !! "query" = None ->
  run (Mcp.handle_call_tool "execute_query" arguments) db
    = (Raise (KeyError "query"), [EConnect true; ECursor; ECursorClose; EClose]).
Proof.
  intros Hconn Hcur Hquery.
  unfold Mcp.handle_call_tool. simpl. handler.
  answer Hconn. answer Hcur. unfold getitem. rewrite Hquery.
  destruct (truthy_opt (arguments !! "parameters")); reflexivity.
Qed.

Lemma call_tool_without_query_witness :
  run (Mcp.handle_call_tool "execute_query" MoreSamples.no_query_arguments)
    Samples.adults
    = (Raise (KeyError "query"), [EConnect true; ECursor; ECursorClose; EClose]).
Proof.
  apply (call_tool_without_query Samples.adults MoreSamples.no_query_arguments);
    reflexivity.
Defined.

(* ===================================================================== *)
(** ** The conversion of binary columns *)
(* ===================================================================== *)

Lemma json_serializable_dict (d : dict) :
  json_serializable (VDict d) = true
  <-> forall key v, d !! key = Some v -> json_serializable v = true.
Proof.
  change (json_serializable (VDict d))
    with (map_fold (fun (_ : string) x acc => json_serializable x && acc) true d).
  apply (map_fold_weak_ind
           (fun r (m : dict) =>
              r = true <-> forall key v, m !! key = Some v -> json_serializable v = true)).
  - split; [|reflexivity]. intros _ key v. rewrite lookup_empty. discriminate.
  - intros i x m r Hfresh IH. rewrite andb_true_iff, IH. split.
    + intros [Hx Hm] key v. rewrite lookup_insert.
      case_decide; [intros [= <-]; exact Hx | apply Hm].
    + intros Hall. split.
      * apply (Hall i). apply lookup_insert_eq.
      * intros key v Hkey. apply (Hall key).
        rewrite lookup_insert_ne; [exact Hkey|]. intros <-. congruence.
Qed.

Lemma binary_placeholder_not_binary v :
  is_binary (Http.binary_placeholder v) = false.
Proof. destruct v; reflexivity. Qed.

Lemma binary_placeholder_serializable v :
  json_serializable (Http.binary_placeholder v) = true
  <-> is_binary v = true \/ json_serializable v = true.
Proof.
  destruct v; simpl; split; auto; intros [H|H]; auto; discriminate.
Qed.

(** The conversion of [get_resource] keeps the number of rows and the
    column names of every row, leaves every value that is not binary as
    it is, and leaves no binary value in any column. *)
Theorem convert_rows_replaces_only_binary (rs : list row) :
  length (Http.convert_rows rs) = length rs
  /\ Forall2 (fun (r r' : row) =>
       dom r' = dom r
       /\ (forall key v, r !! key = Some v -> is_binary v = false ->
             r' !! key = Some v)
       /\ (forall key v, r' !! key = Some v -> is_binary v = false))
       rs (Http.convert_rows rs).
Proof.
  unfold Http.convert_rows. split; [apply length_map|].
  induction rs as [|r rs IH]; constructor; [|exact IH].
  split; [apply dom_fmap_L|]. split.
  - intros key v Hv Hplain.
    rewrite lookup_fmap, Hv. simpl.
    rewrite (binary_placeholder_other v Hplain). reflexivity.
  - intros key v. rewrite lookup_fmap.
    destruct (r !! key) as [w|]; simpl; [|discriminate].
    intros [= <-]. apply binary_placeholder_not_binary.
Qed.

(** Converting twice is converting once: a placeholder is a string and is
    not converted again. *)
Theorem convert_rows_idempotent (rs : list row) :
  Http.convert_rows (Http.convert_rows rs) = Http.convert_rows rs.
Proof.
  unfold Http.convert_rows. rewrite map_map. apply map_ext. intros r.
  rewrite <- map_fmap_compose. apply map_fmap_ext. intros key v _. simpl.
  apply binary_placeholder_other, binary_placeholder_not_binary.
Qed.

(** What the conversion buys: a converted row can be given to
    [json.dumps] exactly when each of its columns was binary or could be
    given to [json.dumps] already.  Only binary columns are repaired; a
    [datetime] column, or bytes nested in a list, still stand in the
    way. *)
Theorem converted_row_serializable (r : row) :
  json_serializable (VDict (Http.binary_placeholder <$> r)) = true
  <-> forall key v, r !! key = Some v ->
        is_binary v = true \/ json_serializable v = true.
Proof.
  rewrite json_serializable_dict. split.
  - intros Hall key v Hv. apply binary_placeholder_serializable.
    apply (Hall key). rewrite lookup_fmap, Hv. reflexivity.
  - intros Hall key w. rewrite lookup_fmap.
    destruct (r !! key) as [v|] eqn:Hv; simpl; [|discriminate].
    intros [= <-]. apply binary_placeholder_serializable. eauto.
Qed.

Lemma decimal_inj (n m : N) : decimal n = decimal m -> n = m.
Proof.
  unfold decimal. intros Heq.
  apply DecimalN.Unsigned.to_uint_inj.
  assert (Hsome : Some (N.to_uint n) = Some (N.to_uint m))
    by (rewrite <- !NilEmpty.usu, Heq; reflexivity).
  congruence.
Qed.

Lemma append_last_inj (a b : string) (c : Ascii.ascii) :
  a +:+ String c "" = b +:+ String c "" -> a = b.
Proof.
  revert b. induction a as [|x a IH]; intros [|y b]; simpl; intros Heq.
  - reflexivity.
  - injection Heq as _ Heq. destruct b; discriminate.
  - injection Heq as _ Heq. destruct a; discriminate.
  - injection Heq as -> Heq. f_equal. auto.
Qed.

(** The placeholder keeps the length of a binary value and nothing else:
    two [bytes] values are replaced by the same placeholder exactly when
    they have the same number of bytes, and a [bytearray] is replaced as
    the [bytes] value with the same content is. *)
Theorem placeholder_determined_by_length (b c : list Byte.byte) :
  (Http.binary_placeholder (VBytes b) = Http.binary_placeholder (VBytes c)
   <-> length b = length c)
  /\ Http.binary_placeholder (VByteArray b) = Http.binary_placeholder (VBytes b).
Proof.
  split; [|reflexivity]. simpl. split.
  - intros [= Heq]. apply append_last_inj, decimal_inj in Heq. lia.
  - intros ->. reflexivity.
Qed.

(* ===================================================================== *)
(** ** Reading a table that exists *)
(* ===================================================================== *)

Lemma dict_truthy_lookup (d : dict) key v :
  d !! key = Some v -> dict_truthy d = true.
Proof.
  intros Hv. unfold dict_truthy.
  destruct (map_to_list d) eqn:Hlist; [|reflexivity].
  apply map_to_list_empty_iff in Hlist. subst d.
  rewrite lookup_empty in Hv. discriminate.
Qed.

Lemma found_first_row cur (r : row) key v :
  fetchone cur = Some r -> r !! key = Some v ->
  Http.not_found cur = false /\ Mcp.not_found cur = false.
Proof.
  intros Hrow Hv. unfold Http.not_found, Mcp.not_found. rewrite Hrow.
  change (truthy_opt (VDict <$> Some r)) with (dict_truthy r).
  rewrite (dict_truthy_lookup r key v Hv). split; reflexivity.
Qed.

(** Reading an existing table over HTTP: the existence check, then
    [SELECT * FROM] followed by the resource id as it was given, without
    parameters; the handler returns all rows of that second statement,
    binary columns converted, and the answer is 200 when FastAPI can
    encode them and 500 when it cannot. *)
Theorem get_resource_existing_table
    (db : env) (resource_id : string) (cur cur' : cursor) (r : row) v
    (encodable : dict -> bool) :
  connect_result db = None -> cursor_result db = None ->
  execute_result db [] (table_exists resource_id) = inr cur ->
  fetchone cur = Some r -> r !! "TABLE_NAME" = Some v ->
  execute_result db [table_exists resource_id] (select_all resource_id) = inr cur' ->
  run (Http.get_resource resource_id) db =
    (Return (data_result (Http.convert_rows (rows cur'))),
     [EConnect true; ECursor;
      EExecute {| sql := VStr table_exists_sql;
                  args := Some (VTuple [VStr resource_id]) |};
      EExecute {| sql := VStr ("SELECT * FROM " +:+ resource_id); args := None |};
      ECursorClose; EClose])
  /\ Http.response_status encodable (result (Http.get_resource resource_id) db)
     = if encodable (data_result (Http.convert_rows (rows cur'))) then 200 else 500.
Proof.
  intros Hconn Hcur Hcheck Hrow Hname Hselect.
  destruct (found_first_row cur r "TABLE_NAME" v Hrow Hname) as [Hfound _].
  unfold result.
  rewrite (run_get_resource_present db Hconn Hcur resource_id cur cur'
             Hcheck Hfound Hselect).
  split; reflexivity.
Qed.

Lemma get_resource_existing_table_witness :
  run (Http.get_resource "blobs") Samples.blobs =
    (Return (data_result (Http.convert_rows [Samples.blob_row])),
     [EConnect true; ECursor;
      EExecute {| sql := VStr table_exists_sql;
                  args := Some (VTuple [VStr "blobs"]) |};
      EExecute {| sql := VStr "SELECT * FROM blobs"; args := None |};
      ECursorClose; EClose])
  /\ Http.response_status (fun _ => true)
       (result (Http.get_resource "blobs") Samples.blobs) = 200.
Proof.
  apply (get_resource_existing_table Samples.blobs "blobs"
           MoreSamples.found_cursor MoreSamples.blobs_cursor
           {[ "TABLE_NAME" := VStr "blobs" ]} (VStr "blobs") (fun _ => true));
    reflexivity.
Defined.



(* ===================================================================== *)
(** ** Parameters of the tool that count as absent *)
(* ===================================================================== *)

(** Through the tool protocol every falsy value given for ["parameters"]
    ([None], [False], [0], the empty string, list, tuple or dict) is
    dropped: the call runs as the call without the key, and [execute] gets
    the statement alone. *)
Theorem falsy_parameters_are_dropped
    (db : env) (name : string) (arguments : dict) (p : value) :
  truthy p = false ->
  run (Mcp.handle_call_tool name (<["parameters" := p]> arguments)) db
  = run (Mcp.handle_call_tool name (delete "parameters" arguments)) db.
Proof.
  intros Hfalsy.
  assert (Hbody : Mcp.handle_call_tool_body (<["parameters" := p]> arguments)
                  = Mcp.handle_call_tool_body (delete "parameters" arguments)).
  { unfold Mcp.handle_call_tool_body, getitem.
    rewrite lookup_insert_eq, lookup_delete_eq.
    rewrite lookup_insert_ne, lookup_delete_ne by discriminate.
    change (truthy_opt (Some p)) with (truthy p). rewrite Hfalsy.
    reflexivity. }
  unfold Mcp.handle_call_tool. rewrite Hbody. reflexivity.
Qed.

Lemma falsy_parameters_are_dropped_witness :
  run (Mcp.handle_call_tool "execute_query"
         (<["parameters" := VList []]> Samples.select_blobs_arguments))
    Samples.adults
  = run (Mcp.handle_call_tool "execute_query"
           (delete "parameters" Samples.select_blobs_arguments)) Samples.adults.
Proof.
  apply (falsy_parameters_are_dropped Samples.adults "execute_query"
           Samples.select_blobs_arguments (VList [])).
  reflexivity.
Defined.

(* ===================================================================== *)
(** ** The two front-ends side by side *)
(* ===================================================================== *)

(** Listing and reading make the same driver calls, in the same order, on
    both front-ends, whatever the database answers. *)
Theorem front_ends_make_the_same_calls (db : env) (resource_id : string) :
  calls Http.list_resources db = calls Mcp.handle_list_resources db
  /\ calls (Http.get_resource resource_id) db
     = calls (Mcp.handle_read_resource resource_id) db.
Proof.
  split; handler; change Mcp.not_found with Http.not_found;
    outcome_cases; reflexivity.
Qed.

(** So does the Query Executor, for a request and tool arguments that
    carry the same query and the same parameters. *)
Theorem query_front_ends_make_the_same_calls
    (db : env) (request : QueryRequest) (arguments : dict) :
  arguments !! "query" = Some (VStr (query request)) ->
  arguments !! "parameters" = VDict <$> parameters request ->
  calls (Http.execute_query request) db
  = calls (Mcp.handle_call_tool "execute_query" arguments) db.
Proof.
  intros Hquery Hparams.
  unfold Mcp.handle_call_tool. simpl. handler.
  unfold getitem. rewrite Hquery, Hparams.
  destruct (connect_result db); simpl; [reflexivity|].
  destruct (cursor_result db); simpl; [reflexivity|].
  destruct (parameters request) as [p|]; simpl;
    [destruct (truthy_opt (Some (VDict p)))|
     change (truthy_opt None) with false];
    simpl; outcome_cases; reflexivity.
Qed.

Lemma query_front_ends_make_the_same_calls_witness :
  calls (Http.execute_query Samples.adults_request) Samples.adults
  = calls (Mcp.handle_call_tool "execute_query" Samples.adults_arguments)
      Samples.adults.
Proof.
  apply (query_front_ends_make_the_same_calls Samples.adults
           Samples.adults_request Samples.adults_arguments);
    reflexivity.
Defined.

(** Once the connection is open, what [POST /query] returns is what the
    tool encodes with [json.dumps], and what the tool raises from its
    [try] block is what [POST /query] reports as a 400. *)
Theorem execute_query_wraps_call_tool
    (db : env) (request : QueryRequest) (arguments : dict) :
  connect_result db = None ->
  arguments !! "query" = Some (VStr (query request)) ->
  arguments !! "parameters" = VDict <$> parameters request ->
  (forall d, result (Http.execute_query request) db = Return d ->
     result (Mcp.handle_call_tool "execute_query" arguments) db
     = (t <- json_dumps (VDict d) ;;
        Return [ {| Mcp.text_type := "text"; Mcp.text := t |} ]))
  /\ (forall e, result (Http.execute_query request) db = Raise e ->
        exists e', e = HTTPException 400 (StrOf e')
                   /\ result (Mcp.handle_call_tool "execute_query" arguments) db
                      = Raise e').
Proof.
  intros Hconn Hquery Hparams.
  unfold Mcp.handle_call_tool. simpl. handler.
  unfold getitem. rewrite Hquery, Hparams, Hconn. simpl.
  destruct (cursor_result db); simpl;
    [split; [discriminate | intros ? [= <-]; eauto]|].
  destruct (parameters request) as [p|]; simpl;
    [destruct (truthy_opt (Some (VDict p)))|
     change (truthy_opt None) with false];
    simpl;
    (destruct (execute_result db [] _) as [e0|cur]; simpl;
     [split; [discriminate | intros ? [= <-]; eauto]|]);
    (destruct (reports_description cur); simpl;
     (split; [intros d [= <-]; unfold fetchall;
              match goal with
              | |- context [json_dumps ?v] => destruct (json_dumps v)
              end; reflexivity
             | discriminate])).
Qed.

Lemma execute_query_wraps_call_tool_witness :
  result (Mcp.handle_call_tool "execute_query" Samples.adults_arguments)
    Samples.adults
  = (t <- json_dumps (VDict (data_result Samples.adults_rows)) ;;
     Return [ {| Mcp.text_type := "text"; Mcp.text := t |} ])
  /\ exists cause,
       HTTPException 400 (StrOf (DatabaseError "syntax error"))
       = HTTPException 400 (StrOf cause)
       /\ result (Mcp.handle_call_tool "execute_query" Samples.adults_arguments)
            Samples.rejecting = Raise cause.
Proof.
  split.
  - apply (proj1 (execute_query_wraps_call_tool Samples.adults
                    Samples.adults_request Samples.adults_arguments
                    eq_refl eq_refl eq_refl)).
    reflexivity.
  - apply (proj2 (execute_query_wraps_call_tool Samples.rejecting
                    Samples.adults_request Samples.adults_arguments
                    eq_refl eq_refl eq_refl)).
    reflexivity.
Defined.

(* ===================================================================== *)
(** ** Listing rows of any shape *)
(* ===================================================================== *)

Lemma Resource_init_returns (i : value) (t : string) (a : dict) (x : Resource) :
  Resource_init i t a = Return x ->
  type x = t /\ attributes x = a
  /\ (i = VStr (id x)
      \/ exists b, (i = VBytes b \/ i = VByteArray b)
                   /\ decode_utf8 b = Some (id x)).
Proof.
  unfold Resource_init.
  destruct i; try discriminate.
  - intros [= <-]. auto.
  - destruct (decode_utf8 b) eqn:Hb; [|discriminate]. intros [= <-]. eauto 7.
  - destruct (decode_utf8 b) eqn:Hb; [|discriminate]. intros [= <-]. eauto 7.
Qed.

Lemma make_resource_mirrors (r : row) (x : Resource) :
  Http.make_resource r = Return x ->
  type x = "table"
  /\ (r !! "TABLE_NAME" = Some (VStr (id x))
      \/ exists b, (r !! "TABLE_NAME" = Some (VBytes b)
                    \/ r !! "TABLE_NAME" = Some (VByteArray b))
                   /\ decode_utf8 b = Some (id x))
  /\ attributes x !! "name" = r !! "TABLE_NAME"
  /\ attributes x !! "type" = r !! "TABLE_TYPE"
  /\ attributes x !! "comment" = r !! "TABLE_COMMENT"
  /\ (attributes x !! "created_at" = Some VNone
      \/ exists d, r !! "CREATE_TIME" = Some (VDatetime d)
                   /\ attributes x !! "created_at" = Some (VStr (isoformat d))).
Proof.
  unfold Http.make_resource, created_at, getitem.
  destruct (r !! "TABLE_NAME") as [name|]; [|discriminate].
  destruct (r !! "TABLE_TYPE") as [ty|]; [|discriminate].
  destruct (r !! "TABLE_COMMENT") as [comment|]; [|discriminate].
  destruct (r !! "CREATE_TIME") as [time|]; [|discriminate].
  cbn [obind].
  destruct (truthy time); cbn [obind];
    [destruct time; try discriminate; cbn [obind]|];
    (intros Hx; apply Resource_init_returns in Hx;
     destruct Hx as (-> & -> & Hid);
     split; [reflexivity|]; split;
     [destruct Hid as [-> | (b & [-> | ->] & Hb)]; eauto 7
     |repeat split; eauto]).
Qed.

Lemma for_tables_success (rs : list row) :
  forall resources result,
    Http.for_tables rs resources = Return result ->
    exists new, result = resources ++ new
                /\ Forall2 (fun r x => Http.make_resource r = Return x) rs new.
Proof.
  induction rs as [|r rs IH]; intros resources result; cbn [Http.for_tables].
  - intros [= <-]. exists []. rewrite app_nil_r. auto.
  - destruct (Http.make_resource r) as [x|] eqn:Hx; cbn [obind]; [|discriminate].
    intros Hrest. destruct (IH _ _ Hrest) as (new & -> & Hnew).
    exists (x :: new). rewrite <- app_assoc. auto.
Qed.

Lemma for_tables_first_failure (good : list row) (bad : row) (rest : list row) e :
  Forall (fun r => exists x, Http.make_resource r = Return x) good ->
  Http.make_resource bad = Raise e ->
  forall resources,
    Http.for_tables (good ++ bad :: rest) resources = Raise e.
Proof.
  intros Hgood Hbad. induction Hgood as [|r good [x Hx] _ IH]; intros resources.
  - cbn [app Http.for_tables]. rewrite Hbad. reflexivity.
  - cbn [app Http.for_tables]. rewrite Hx. cbn [obind]. apply IH.
Qed.

Lemma listing_returned (db : env) (resources : list Resource) :
  result Http.list_resources db = Return resources ->
  exists cur, execute_result db [] list_tables = inr cur
              /\ Http.for_tables (rows cur) [] = Return resources.
Proof.
  handler.
  destruct (connect_result db); simpl; [discriminate|].
  destruct (cursor_result db); simpl; [discriminate|].
  destruct (execute_result db [] list_tables) as [e|cur]; simpl; [discriminate|].
  unfold fetchall.
  destruct (Http.for_tables (rows cur) []) eqn:Hloop; simpl; [|discriminate].
  intros [= <-]. eauto.
Qed.

(** Whenever the HTTP listing returns, for rows of any shape, the
    metadata query has succeeded and the resources mirror its rows one for
    one and in order.  The type is "table".  The id is the row's
    [TABLE_NAME] when that is a string, and its UTF-8 decoding when it is
    a [bytes] or [bytearray] value.  The attributes "name", "type" and
    "comment" are the row's values as they are (so "name" stays binary
    when the id was decoded), and "created_at" is null or the ISO form of
    the row's [CREATE_TIME]. *)
Theorem listing_mirrors_the_rows (db : env) (resources : list Resource) :
  result Http.list_resources db = Return resources ->
  exists cur,
    execute_result db [] list_tables = inr cur
    /\ Forall2 (fun (r : row) (x : Resource) =>
         type x = "table"
         /\ (r !! "TABLE_NAME" = Some (VStr (id x))
             \/ exists b, (r !! "TABLE_NAME" = Some (VBytes b)
                           \/ r !! "TABLE_NAME" = Some (VByteArray b))
                          /\ decode_utf8 b = Some (id x))
         /\ attributes x !! "name" = r !! "TABLE_NAME"
         /\ attributes x !! "type" = r !! "TABLE_TYPE"
         /\ attributes x !! "comment" = r !! "TABLE_COMMENT"
         /\ (attributes x !! "created_at" = Some VNone
             \/ exists d, r !! "CREATE_TIME" = Some (VDatetime d)
                          /\ attributes x !! "created_at"
                             = Some (VStr (isoformat d))))
         (rows cur) resources.
Proof.
  intros Hreturned.
  destruct (listing_returned db resources Hreturned) as (cur & Hquery & Hloop).
  exists cur. split; [exact Hquery|].
  destruct (for_tables_success _ _ _ Hloop) as (new & -> & Hnew).
  simpl. eapply Forall2_impl; [exact Hnew|].
  intros r x Hx. apply make_resource_mirrors, Hx.
Qed.

Lemma listing_mirrors_the_rows_witness :
  exists cur,
    execute_result MoreSamples.binary_name [] list_tables = inr cur
    /\ Forall2 (fun (r : row) (x : Resource) =>
         type x = "table"
         /\ (r !! "TABLE_NAME" = Some (VStr (id x))
             \/ exists b, (r !! "TABLE_NAME" = Some (VBytes b)
                           \/ r !! "TABLE_NAME" = Some (VByteArray b))
                          /\ decode_utf8 b = Some (id x))
         /\ attributes x !! "name" = r !! "TABLE_NAME"
         /\ attributes x !! "type" = r !! "TABLE_TYPE"
         /\ attributes x !! "comment" = r !! "TABLE_COMMENT"
         /\ (attributes x !! "created_at" = Some VNone
             \/ exists d, r !! "CREATE_TIME" = Some (VDatetime d)
                          /\ attributes x !! "created_at"
                             = Some (VStr (isoformat d))))
         (rows cur)
         [resource_of Samples.users_info; MoreSamples.binary_name_resource].
Proof.
  apply (listing_mirrors_the_rows MoreSamples.binary_name
           [resource_of Samples.users_info; MoreSamples.binary_name_resource]).
  reflexivity.
Defined.

(** The HTTP listing is all or nothing.  If the rows before some row can
    be turned into resources and that row cannot, failing with [e] (a
    column missing from the row, a name that is neither a string nor
    UTF-8 bytes, a [CREATE_TIME] that is neither empty nor a datetime),
    then no resource is returned: the handler raises
    [HTTPException(500, str(e))], having closed cursor and connection. *)
Theorem listing_stops_at_first_bad_row
    (db : env) (cur : cursor) (good : list row) (bad : row) (rest : list row)
    (e : exn) :
  connect_result db = None -> cursor_result db = None ->
  execute_result db [] list_tables = inr cur ->
  rows cur = good ++ bad :: rest ->
  Forall (fun r => exists x, Http.make_resource r = Return x) good ->
  Http.make_resource bad = Raise e ->
  run Http.list_resources db =
    (Raise (HTTPException 500 (StrOf e)),
     [EConnect true; ECursor; EExecute list_tables; ECursorClose; EClose]).
Proof.
  intros Hconn Hcur Hquery Hrows Hgood Hbad.
  rewrite (run_list_resources db Hconn Hcur cur Hquery), Hrows.
  rewrite (for_tables_first_failure good bad rest e Hgood Hbad []).
  reflexivity.
Qed.

Lemma listing_stops_at_first_bad_row_witness :
  run Http.list_resources MoreSamples.text_time =
    (Raise (HTTPException 500 (StrOf (AttributeError "isoformat"))),
     [EConnect true; ECursor; EExecute list_tables; ECursorClose; EClose]).
Proof.
  apply (listing_stops_at_first_bad_row MoreSamples.text_time
           MoreSamples.text_time_cursor
           [Samples.users_row] MoreSamples.text_time_row [Samples.audit_row]
           (AttributeError "isoformat"));
    try reflexivity.
  repeat constructor. eexists. reflexivity.
Defined.

(* ===================================================================== *)
(** ** The frame of a request *)
(* ===================================================================== *)

(** The driver calls of every request have one frame: a single connection
    attempt; if it fails nothing else; if it succeeds a cursor is asked
    for; if that fails the connection is closed at once; otherwise the
    statements run, then the cursor is closed, then the connection.
    Nothing is retried and nothing happens after the connection is
    closed. *)
Theorem requests_are_framed
    (db : env) (resource_id : string) (request : QueryRequest) (arguments : dict) :
  Trace.framed db (calls Http.list_resources db)
  /\ Trace.framed db (calls (Http.get_resource resource_id) db)
  /\ Trace.framed db (calls (Http.execute_query request) db)
  /\ Trace.framed db (calls Mcp.handle_list_resources db)
  /\ Trace.framed db (calls (Mcp.handle_read_resource resource_id) db)
  /\ Trace.framed db (calls (Mcp.handle_call_tool "execute_query" arguments) db).
Proof.
  unfold Trace.framed, Mcp.handle_call_tool. simpl.
  repeat split; handler; outcome_cases; reflexivity.
Qed.

(** A request makes exactly one connection attempt and opens at most one
    cursor; the lister and the executor hand at most one statement to the
    driver, the reader at most two. *)
Theorem requests_are_bounded
    (db : env) (resource_id : string) (request : QueryRequest) (arguments : dict) :
  (Trace.connect_attempts (calls Http.list_resources db) = 1
   /\ Trace.cursors_opened (calls Http.list_resources db) <= 1
   /\ length (executed (calls Http.list_resources db)) <= 1)%nat
  /\ (Trace.connect_attempts (calls (Http.get_resource resource_id) db) = 1
      /\ Trace.cursors_opened (calls (Http.get_resource resource_id) db) <= 1
      /\ length (executed (calls (Http.get_resource resource_id) db)) <= 2)%nat
  /\ (Trace.connect_attempts (calls (Http.execute_query request) db) = 1
      /\ Trace.cursors_opened (calls (Http.execute_query request) db) <= 1
      /\ length (executed (calls (Http.execute_query request) db)) <= 1)%nat
  /\ (Trace.connect_attempts (calls Mcp.handle_list_resources db) = 1
      /\ Trace.cursors_opened (calls Mcp.handle_list_resources db) <= 1
      /\ length (executed (calls Mcp.handle_list_resources db)) <= 1)%nat
  /\ (Trace.connect_attempts (calls (Mcp.handle_read_resource resource_id) db) = 1
      /\ Trace.cursors_opened (calls (Mcp.handle_read_resource resource_id) db) <= 1
      /\ length (executed (calls (Mcp.handle_read_resource resource_id) db)) <= 2)%nat
  /\ (Trace.connect_attempts
        (calls (Mcp.handle_call_tool "execute_query" arguments) db) = 1
      /\ Trace.cursors_opened
           (calls (Mcp.handle_call_tool "execute_query" arguments) db) <= 1
      /\ length (executed
                   (calls (Mcp.handle_call_tool "execute_query" arguments) db)) <= 1)%nat.
Proof.
  unfold Mcp.handle_call_tool. simpl.
  repeat split; handler; outcome_cases; simpl; lia.
Qed.

(* ===================================================================== *)
(** ** Failures after the connection is open *)
(* ===================================================================== *)

(** Once the connection is open, the only exception that leaves an HTTP
    handler is the [HTTPException] of its [except] clause, with the text
    of the exception it caught as detail: status 500 on the two read
    routes, 400 on the query route. *)
Theorem http_errors_are_wrapped
    (db : env) (resource_id : string) (request : QueryRequest) :
  connect_result db = None ->
  (forall e, result Http.list_resources db = Raise e ->
     exists cause, e = HTTPException 500 (StrOf cause))
  /\ (forall e, result (Http.get_resource resource_id) db = Raise e ->
        exists cause, e = HTTPException 500 (StrOf cause))
  /\ (forall e, result (Http.execute_query request) db = Raise e ->
        exists cause, e = HTTPException 400 (StrOf cause)).
Proof.
  intros Hconn.
  repeat split; handler; answer Hconn; outcome_cases;
    intros ? [= <-]; eauto.
Qed.

Lemma http_errors_are_wrapped_witness :
  result (Http.execute_query Samples.adults_request) Samples.rejecting
    = Raise (HTTPException 400 (StrOf (DatabaseError "syntax error")))
  /\ exists cause,
       HTTPException 400 (StrOf (DatabaseError "syntax error"))
       = HTTPException 400 (StrOf cause).
Proof.
  split; [reflexivity|].
  apply (proj2 (proj2 (http_errors_are_wrapped Samples.rejecting "users"
                         Samples.adults_request eq_refl))).
  reflexivity.
Defined.

(** Passing the existence check does not make the read succeed: the name
    that was bound as a parameter in the check stands unquoted in the
    [SELECT].  When the driver rejects that statement with [e], the tool
    front-end raises [e] and the HTTP front-end answers 500 with [str(e)];
    both have executed the two statements and closed the connection. *)
Theorem read_rejected_after_check
    (db : env) (resource_id : string) (cur : cursor) (r : row) v (e : exn) :
  connect_result db = None -> cursor_result db = None ->
  execute_result db [] (table_exists resource_id) = inr cur ->
  fetchone cur = Some r -> r !! "TABLE_NAME" = Some v ->
  execute_result db [table_exists resource_id] (select_all resource_id) = inl e ->
  run (Http.get_resource resource_id) db =
    (Raise (HTTPException 500 (StrOf e)),
     [EConnect true; ECursor; EExecute (table_exists resource_id);
      EExecute (select_all resource_id); ECursorClose; EClose])
  /\ run (Mcp.handle_read_resource resource_id) db =
    (Raise e,
     [EConnect true; ECursor; EExecute (table_exists resource_id);
      EExecute (select_all resource_id); ECursorClose; EClose]).
Proof.
  intros Hconn Hcur Hcheck Hrow Hname Hselect.
  destruct (found_first_row cur r "TABLE_NAME" v Hrow Hname) as [Hhttp Hmcp].
  split; handler; answer Hconn; answer Hcur; answer Hcheck.
  - answer Hhttp. answer Hselect. reflexivity.
  - answer Hmcp. answer Hselect. reflexivity.
Qed.

Lemma read_rejected_after_check_witness :
  run (Http.get_resource "order items") MoreSamples.unquoted =
    (Raise (HTTPException 500 (StrOf (DatabaseError "syntax error near items"))),
     [EConnect true; ECursor; EExecute (table_exists "order items");
      EExecute (select_all "order items"); ECursorClose; EClose])
  /\ run (Mcp.handle_read_resource "order items") MoreSamples.unquoted =
    (Raise (DatabaseError "syntax error near items"),
     [EConnect true; ECursor; EExecute (table_exists "order items");
      EExecute (select_all "order items"); ECursorClose; EClose]).
Proof.
  apply (read_rejected_after_check MoreSamples.unquoted "order items"
           MoreSamples.order_items_cursor
           {[ "TABLE_NAME" := VStr "order items" ]} (VStr "order items")
           (DatabaseError "syntax error near items"));
    reflexivity.
Defined.

(* ===================================================================== *)
(** ** The tool listing *)
(* ===================================================================== *)

(** The tool listing emits no Resource, whatever the rows: it returns
    only when the metadata query succeeds with no row at all, and then it
    returns the empty list.  With one row or more it raises at the first
    one, since [types.Resource] takes none of the arguments it is given. *)
Theorem tool_listing_emits_nothing (db : env) (resources : list Resource) :
  result Mcp.handle_list_resources db = Return resources ->
  resources = []
  /\ exists cur, execute_result db [] list_tables = inr cur /\ rows cur = [].
Proof.
  handler.
  destruct (connect_result db); simpl; [discriminate|].
  destruct (cursor_result db); simpl; [discriminate|].
  destruct (execute_result db [] list_tables) as [e|cur]; simpl; [discriminate|].
  unfold fetchall. destruct (rows cur) as [|r rs] eqn:Hrows.
  - simpl. intros [= <-]. eauto.
  - destruct (tool_make_resource_never_returns r) as [e He].
    rewrite (tool_for_tables_first_row r rs [] e He). discriminate.
Qed.

Lemma tool_listing_emits_nothing_witness :
  [] = @nil Resource
  /\ exists cur, execute_result Samples.empty_schema [] list_tables = inr cur
                 /\ rows cur = [].
Proof.
  apply (tool_listing_emits_nothing Samples.empty_schema []).
  reflexivity.
Defined.
